(** * PPG / GSR emotion API: a shallow embedding of [main.py]

    The module follows the source top-down: the two threshold classifiers,
    the GSR analyser, the fusion rule, the time parser and finally the
    request handler [analyze_sensors] with its per-window loop.

    Numbers.  A Python float that is not NaN or an infinity is a rational
    number, and the comparisons the source performs on floats are exact
    comparisons of those rationals, so signal values and features are
    modelled in [Q].  A missing CSV cell (NaN) is [None].  Arithmetic is
    the exact one: rounding is abstracted away.  The only operation of the
    source with no rational counterpart, [np.sqrt], stays a parameter of
    the development, like the peak detector of scipy.

    Files.  [pd.read_csv] is modelled by what it returns: the table, the
    index of the frame (the row numbers, or the first field of the rows
    when they have one field more than the header) and the cells of the
    signal columns that hold text instead of a number. *)

From Stdlib Require Import ZArith QArith List Sorted String Ascii Bool Lia Lqa.
Import ListNotations.

Local Open Scope Q_scope.

(** ** Comparisons on floats *)

Definition Qltb (a b : Q) : bool := negb (Qle_bool b a).
Definition Qleb (a b : Q) : bool := Qle_bool a b.

Declare Scope pyfloat_scope.
Delimit Scope pyfloat_scope with py.
Infix "<?" := Qltb (at level 70, no associativity) : pyfloat_scope.
Infix "<=?" := Qleb (at level 70, no associativity) : pyfloat_scope.
Notation "a >? b" := (Qltb b a) (at level 70, no associativity) : pyfloat_scope.
Notation "a >=? b" := (Qleb b a) (at level 70, no associativity) : pyfloat_scope.
Local Open Scope pyfloat_scope.

(** ** Emotion classifiers

    The thresholds are the decimal numbers of the source. *)

Definition classify_ppg_emotion (ppg_sdnn ppg_rmssd : Q) : string :=
  if (ppg_sdnn >? 100) && (ppg_rmssd >? 50) then "Happy"
  else if (ppg_sdnn <? 50) && (ppg_rmssd <? 30) then "Sad"
  else if (ppg_sdnn >? 100) && (ppg_rmssd <? 30) then "Angry"
  else if ((50 <=? ppg_sdnn) && (ppg_sdnn <=? 100))
          && ((30 <=? ppg_rmssd) && (ppg_rmssd <=? 50)) then "Neutral"
  else "Neutral/Calm".

Definition classify_gsr_emotion (scr_amplitude scr_frequency : Q) : string :=
  if (scr_amplitude >? 0.5) && (scr_frequency >? 0.05) then "Happy/Angry"
  else if (scr_amplitude <? 0.3) && (scr_frequency <? 0.02) then "Sad"
  else if ((0.3 <=? scr_amplitude) && (scr_amplitude <=? 0.5))
          && ((0.02 <=? scr_frequency) && (scr_frequency <=? 0.05)) then "Neutral"
  else "Neutral/Calm".

(** ** Fusion rule *)

Definition combine_emotions (ppg_emotion gsr_emotion : string) : string :=
  if String.eqb gsr_emotion "Happy/Angry" then gsr_emotion else ppg_emotion.

(** ** Exceptions

    Fallible Python code returns a [result]: a value, or the class of the
    exception it raises. *)

Inductive exn : Set :=
| ValueError
| AttributeError
| KeyError
| TypeError
| IndexError
| ZeroDivisionError
| JSONDecodeError
| ParserError.

Inductive result (A : Type) : Type :=
| Ok (a : A)
| Raise (e : exn).

Arguments Ok {A} a.
Arguments Raise {A} e.

Definition bind {A B : Type} (c : result A) (k : A -> result B) : result B :=
  match c with
  | Ok a => k a
  | Raise e => Raise e
  end.

Declare Scope py_scope.
Delimit Scope py_scope with result.
Notation "x <- c ;; k" := (bind c (fun x => k))
  (at level 61, c at next level, right associativity) : py_scope.
Notation "' pat <- c ;; k" := (bind c (fun x => match x with pat => k end))
  (at level 61, pat pattern, c at next level, right associativity) : py_scope.
Local Open Scope py_scope.

(** ** Time parser

    A string is the sequence of its code points (here: code points below
    256).  [split] is [str.split(sep)] for a one-character separator: it
    cuts at every occurrence, so a string with [n] separators gives [n+1]
    parts. *)

Fixpoint split (sep : ascii) (s : string) : list string :=
  match s with
  | EmptyString => [EmptyString]
  | String c r =>
      if Ascii.eqb c sep then EmptyString :: split sep r
      else match split sep r with
           | p :: ps => String c p :: ps
           | [] => [String c EmptyString] (* never: [split] has a first part *)
           end
  end.

(** [a, b = parts]: unpacking into two names raises [ValueError] unless
    there are exactly two parts. *)
Definition unpack2 {A : Type} (parts : list A) : result (A * A) :=
  match parts with
  | [a; b] => Ok (a, b)
  | _ => Raise ValueError
  end.

(** [int(s)] on a string, base 10, as CPython reads it: white space around
    is skipped, one sign may lead, digits may be grouped by single
    underscores, and more than 4300 digits are refused. *)

Definition is_space (c : ascii) : bool :=
  let n := nat_of_ascii c in
  ((9 <=? n)%nat && (n <=? 13)%nat) || (n =? 32)%nat || (n =? 133)%nat || (n =? 160)%nat.

Definition is_digit (c : ascii) : bool :=
  let n := nat_of_ascii c in (48 <=? n)%nat && (n <=? 57)%nat.

Definition digit_value (c : ascii) : Z := Z.of_nat (nat_of_ascii c - 48).

Definition is_underscore (c : ascii) : bool := Ascii.eqb c "_"%char.

Fixpoint lstrip (l : list ascii) : list ascii :=
  match l with
  | c :: r => if is_space c then lstrip r else l
  | [] => []
  end.

Definition strip (l : list ascii) : list ascii := rev (lstrip (rev (lstrip l))).

(** The digits after the first one: [prev_us] records that the previous
    character was an underscore (a second one, or the end, is an error). *)
Fixpoint digits_value (acc : Z) (prev_us : bool) (l : list ascii) : option Z :=
  match l with
  | [] => if prev_us then None else Some acc
  | c :: r =>
      if is_digit c then digits_value (10 * acc + digit_value c) false r
      else if is_underscore c then
             if prev_us then None else digits_value acc true r
           else None
  end.

Definition max_str_digits : nat := 4300.

Definition unsigned_value (l : list ascii) : option Z :=
  match l with
  | c :: r =>
      if is_digit c && (List.length (filter is_digit l) <=? max_str_digits)%nat
      then digits_value (digit_value c) false r
      else None
  | [] => None
  end.

Definition py_int (s : string) : result Z :=
  let v :=
    match strip (list_ascii_of_string s) with
    | c :: r =>
        if Ascii.eqb c "-"%char then option_map Z.opp (unsigned_value r)
        else if Ascii.eqb c "+"%char then unsigned_value r
        else unsigned_value (c :: r)
    | [] => None
    end in
  match v with
  | Some z => Ok z
  | None => Raise ValueError
  end.

(** A cell of the [time] column as pandas hands it to [apply]: a string, or
    a number when the column was read as numeric or is the row index
    (a missing cell is the float NaN, [VFloat None]). *)
Inductive pyval : Type :=
| VStr (s : string)
| VInt (z : Z)
| VFloat (x : option Q).

(** [time_str.split(sep)]: only a string has the method. *)
Definition str_split (time_str : pyval) (sep : ascii) : result (list string) :=
  match time_str with
  | VStr s => Ok (split sep s)
  | VInt _ | VFloat _ => Raise AttributeError
  end.

(** The body of the [try] block. *)
Definition convert_time_body (time_str : pyval) : result Z :=
  parts <- str_split time_str ":"%char ;;
  '(minutes, seconds_sample) <- unpack2 parts ;;
  '(seconds, _) <- unpack2 (split "."%char seconds_sample) ;;
  m <- py_int minutes ;;
  s <- py_int seconds ;;
  Ok (m * 60 + s)%Z.

(** The whole function: [None] is Python's [None]. *)
Definition convert_time_to_seconds (time_str : pyval) : result (option Z) :=
  match convert_time_body time_str with
  | Ok total_seconds => Ok (Some total_seconds)
  | Raise ValueError | Raise AttributeError => Ok None
  | Raise e => Raise e
  end.

(** ** numpy on rationals

    [np.diff], [np.where(...)[0]], [np.mean] and [np.square] in exact
    arithmetic.  A PPG cell is [option Q]: [None] is NaN, which propagates
    through the subtraction and makes every comparison false. *)

Definition cell : Type := option Q.

Definition isnull (c : cell) : bool :=
  match c with
  | None => true
  | Some _ => false
  end.

Definition cell_sub (a b : cell) : cell :=
  match a, b with
  | Some x, Some y => Some (x - y)
  | _, _ => None
  end.

(** [c > 0] on a float that may be NaN. *)
Definition cell_pos (c : cell) : bool :=
  match c with
  | Some x => x >? 0
  | None => false
  end.

(** [np.diff(a)]: [a[i+1] - a[i]], one element fewer than [a]. *)
Fixpoint np_diff {A : Type} (sub : A -> A -> A) (a : list A) : list A :=
  match a with
  | x :: ((y :: _) as rest) => sub y x :: np_diff sub rest
  | _ => []
  end.

(** [np.where(mask)[0]]: the positions at which [mask] is true, counted
    from [i]. *)
Fixpoint np_where_from (i : Z) (mask : list bool) : list Z :=
  match mask with
  | [] => []
  | b :: rest =>
      if b then i :: np_where_from (i + 1) rest else np_where_from (i + 1) rest
  end.

Definition np_where (mask : list bool) : list Z := np_where_from 0 mask.

Definition Qsum (l : list Q) : Q := fold_right Qplus 0 l.

(** [np.mean(a)] for a non-empty [a] (numpy answers NaN on an empty array;
    the source never takes the mean of one). *)
Definition np_mean (a : list Q) : Q := Qsum a / inject_Z (Z.of_nat (List.length a)).

Definition np_square (a : list Q) : list Q := map (fun x => x * x) a.

(** ** JSON values, as [json.loads] returns them

    An object is the Python dict: its items in insertion order, keys
    distinct.  Numbers are rationals (ints and finite floats). *)

#[local] Set Warnings "-register-all".

Inductive json : Type :=
| JNull
| JBool (b : bool)
| JNum (q : Q)
| JStr (s : string)
| JArr (items : list json)
| JObj (members : list (string * json)).

Fixpoint dict_get (members : list (string * json)) (key : string) : option json :=
  match members with
  | [] => None
  | (k, v) :: rest => if String.eqb k key then Some v else dict_get rest key
  end.

(** [obj[key]] with a string key. *)
Definition getitem_key (obj : json) (key : string) : result json :=
  match obj with
  | JObj members =>
      match dict_get members key with
      | Some v => Ok v
      | None => Raise KeyError
      end
  | JArr _ | JStr _ | JNull | JBool _ | JNum _ => Raise TypeError
  end.

Definition chars (s : string) : list json :=
  map (fun c => JStr (String c EmptyString)) (list_ascii_of_string s).

(** [obj[i]] with a non-negative integer [i]. *)
Definition getitem_index (obj : json) (i : nat) : result json :=
  match obj with
  | JArr items =>
      match nth_error items i with
      | Some v => Ok v
      | None => Raise IndexError
      end
  | JStr s =>
      match nth_error (chars s) i with
      | Some v => Ok v
      | None => Raise IndexError
      end
  | JObj _ => Raise KeyError
  | JNull | JBool _ | JNum _ => Raise TypeError
  end.

(** [for chunk in obj]: a list gives its items, a dict its keys, a string
    its characters; nothing else is iterable. *)
Definition py_iter (obj : json) : result (list json) :=
  match obj with
  | JArr items => Ok items
  | JObj members => Ok (map (fun kv => JStr (fst kv)) members)
  | JStr s => Ok (chars s)
  | JNull | JBool _ | JNum _ => Raise TypeError
  end.

(** ** The signal table

    [DataFrame] is the table [pd.read_csv] returns: which of the three
    columns the file has, and its rows.  A column the file lacks is ignored
    in the rows.  A signal cell is given as the float that
    [.astype(float)] makes of it. *)

Record sample : Type := {
  time : pyval;
  ppg_signal : cell;
  gsr_signal : cell
}.

Record DataFrame : Type := {
  has_time : bool;
  has_ppg_signal : bool;
  has_gsr_signal : bool;
  rows : list sample
}.

(** The index of the frame.  [pd.read_csv] numbers the rows
    ([RangeIndex]), unless the rows of the file have one more field than
    its header: the first field of every row is then the index of the
    frame ([FirstField]), a text, a number, or NaN where the field is
    empty.  (Rows with several fields more than the header, which give a
    frame several index fields, are not modelled.) *)
Inductive Index : Type :=
| RangeIndex
| FirstField (cells : list pyval).

(** [df.index] at the row in position [i]; a row past the end of the
    first field has an empty one. *)
Definition index_label (index : Index) (i : nat) : pyval :=
  match index with
  | RangeIndex => VInt (Z.of_nat i)
  | FirstField cells => nth i cells (VFloat None)
  end.

(** What the reader finds beside the table: the index, and in each signal
    column the positions of the rows whose cell is a text that [float()]
    refuses (the cell of such a row in the table is ignored; so are the
    positions given for a column the file lacks). *)
Record Reading : Type := {
  index : Index;
  ppg_text : list nat;
  gsr_text : list nat
}.

(** Rows numbered by pandas, and numbers in the signal columns. *)
Definition plain : Reading :=
  {| index := RangeIndex; ppg_text := []; gsr_text := [] |}.

(** A row that survived [dropna(subset=['time'])]: [label] is the position
    it had in the file, under which [dropna] and [.loc] keep it; it is the
    row's index label when pandas numbered the rows, and stands for the
    row's first field otherwise.  [seconds] is the time as parsed: pandas
    keeps the column as int64, and as float64 once a row fails to parse,
    which holds a time of up to 2^53 seconds exactly. *)
Record timed_sample : Type := {
  label : nat;
  seconds : Z;
  ppg : cell;
  gsr : cell
}.

(** Lines 80-93 for the rows from position [i] on: the [time] column (the
    index when the file has none) goes through [convert_time_to_seconds],
    rows whose time is [None] are dropped, and a signal column the file
    lacks is NaN throughout. *)
Fixpoint prepare_from (index : Index) (df : DataFrame) (i : nat) (rs : list sample)
  : result (list timed_sample) :=
  match rs with
  | [] => Ok []
  | r :: rest =>
      t <- convert_time_to_seconds (if has_time df then time r else index_label index i) ;;
      kept <- prepare_from index df (S i) rest ;;
      match t with
      | Some s =>
          Ok ({| label := i; seconds := s;
                 ppg := if has_ppg_signal df then ppg_signal r else None;
                 gsr := if has_gsr_signal df then gsr_signal r else None |} :: kept)
      | None => Ok kept
      end
  end.

Definition prepare (index : Index) (df : DataFrame) : result (list timed_sample) :=
  prepare_from index df 0 (rows df).

(** The text cells that count: those of the columns the file has. *)
Definition text_cells (how : Reading) (df : DataFrame) : Reading :=
  {| index := index how;
     ppg_text := if has_ppg_signal df then ppg_text how else [];
     gsr_text := if has_gsr_signal df then gsr_text how else [] |}.

(** [.astype(float)] on the cells [segment] of the rows [selected]: a
    [ValueError] when one of them is a text that [float()] refuses. *)
Definition astype_float {A : Type} (text_rows : list nat) (selected : list timed_sample)
  (segment : A) : result A :=
  if existsb (fun r => existsb (Nat.eqb (label r)) text_rows) selected
  then Raise ValueError
  else Ok segment.

(** [df['time'] >= bound] and [df['time'] <= bound] ([op] is the
    comparison): a number is compared with every time, [True] and [False]
    count as 1 and 0, [None] compares false everywhere.  A string or a dict
    is an invalid comparison unless the column is empty; a list is compared
    item by item when it has as many numbers as the column has rows. *)
Definition json_number (j : json) : option Q :=
  match j with
  | JNum q => Some q
  | JBool b => Some (if b then 1 else 0)
  | _ => None
  end.

Fixpoint json_numbers (items : list json) : option (list Q) :=
  match items with
  | [] => Some []
  | j :: rest =>
      match json_number j, json_numbers rest with
      | Some q, Some qs => Some (q :: qs)
      | _, _ => None
      end
  end.

Fixpoint cmp_items (op : Q -> Q -> bool) (times : list Z) (qs : list Q) : list bool :=
  match times, qs with
  | t :: ts, q :: qs' => op (inject_Z t) q :: cmp_items op ts qs'
  | _, _ => []
  end.

Definition series_cmp (op : Q -> Q -> bool) (times : list Z) (bound : json)
  : result (list bool) :=
  match bound with
  | JNum q => Ok (map (fun t => op (inject_Z t) q) times)
  | JBool b => Ok (map (fun t => op (inject_Z t) (if b then 1 else 0)) times)
  | JNull => Ok (map (fun _ => false) times)
  | JStr _ | JObj _ =>
      match times with
      | [] => Ok []
      | _ :: _ => Raise TypeError
      end
  | JArr items =>
      if (List.length items =? List.length times)%nat then
        match json_numbers items with
        | Some qs => Ok (cmp_items op times qs)
        | None => Raise TypeError
        end
      else Raise ValueError
  end.

Fixpoint mask_and (a b : list bool) : list bool :=
  match a, b with
  | x :: a', y :: b' => (x && y) :: mask_and a' b'
  | _, _ => []
  end.

Fixpoint select {A : Type} (mask : list bool) (l : list A) : list A :=
  match mask, l with
  | m :: mask', x :: l' => if m then x :: select mask' l' else select mask' l'
  | _, _ => []
  end.

(** [df.loc[(df['time'] >= start_time) & (df['time'] <= end_time)]]. *)
Definition window (df : list timed_sample) (start_time end_time : json)
  : result (list timed_sample) :=
  ge <- series_cmp (fun t b => t >=? b) (map seconds df) start_time ;;
  le <- series_cmp (fun t b => t <=? b) (map seconds df) end_time ;;
  Ok (select (mask_and ge le) df).

(** A pandas Series of floats cut out of the table: the values, each under
    the label of its row (see [timed_sample]). *)
Definition Series : Type := list (nat * Q).

Definition values (s : Series) : list Q := map snd s.

Fixpoint series_loc (s : Series) (l : nat) : option Q :=
  match s with
  | [] => None
  | (k, v) :: rest => if (k =? l)%nat then Some v else series_loc rest l
  end.

(** [s[keys]] with an array of integers: [Series.__getitem__] reads the
    keys as index labels, not as positions, when the index holds integers
    (here: the row numbers that [dropna] and [.loc] keep), and a key that
    is no label is a [KeyError] (pandas 1.0 and later). *)
Fixpoint series_getitem (s : Series) (keys : list nat) : result (list Q) :=
  match keys with
  | [] => Ok []
  | k :: rest =>
      match series_loc s k with
      | Some v => vs <- series_getitem s rest ;; Ok (v :: vs)
      | None => Raise KeyError
      end
  end.

(** [s[keys]] when the first field is the index.  On an index of objects
    (some cell is a text) [Series.__getitem__] reads integer keys as
    positions (pandas 1.x and 2.x), and a position past the end is an
    [IndexError].  On an index of numbers the keys are labels: every row
    whose label equals the key is taken, and a key that is no label is a
    [KeyError]. *)
Definition is_text (v : pyval) : bool :=
  match v with
  | VStr _ => true
  | VInt _ | VFloat _ => false
  end.

Fixpoint series_iloc (s : Series) (keys : list nat) : result (list Q) :=
  match keys with
  | [] => Ok []
  | k :: rest =>
      match nth_error (values s) k with
      | Some v => vs <- series_iloc s rest ;; Ok (v :: vs)
      | None => Raise IndexError
      end
  end.

Definition label_is (l : pyval) (k : nat) : bool :=
  match l with
  | VInt z => (z =? Z.of_nat k)%Z
  | VFloat (Some x) => Qeq_bool x (inject_Z (Z.of_nat k))
  | VFloat None | VStr _ => false
  end.

Fixpoint series_loc_all (index : Index) (s : Series) (keys : list nat) : result (list Q) :=
  match keys with
  | [] => Ok []
  | k :: rest =>
      match filter (fun lv => label_is (index_label index (fst lv)) k) s with
      | [] => Raise KeyError
      | found => vs <- series_loc_all index s rest ;; Ok (values found ++ vs)%list
      end
  end.

(** [s[keys]] under either index. *)
Definition series_getitem_on (index : Index) (s : Series) (keys : list nat)
  : result (list Q) :=
  match index with
  | RangeIndex => series_getitem s keys
  | FirstField cells =>
      if existsb is_text cells then series_iloc s keys
      else series_loc_all index s keys
  end.

(** [gsr_segment.dropna()]: the present values under their labels. *)
Fixpoint dropna (s : list (nat * cell)) : Series :=
  match s with
  | [] => []
  | (l, Some v) :: rest => (l, v) :: dropna rest
  | (_, None) :: rest => dropna rest
  end.

(** Python's [/]. *)
Definition py_div (a b : Q) : result Q :=
  if Qeq_bool b 0 then Raise ZeroDivisionError else Ok (a / b).

(** ** Result records and the two request parts *)

Record ResultRecord : Type := {
  timestamp : json * json;
  text : json;
  emotion : string
}.

(** The uploaded file as [pd.read_csv(file.file, sep=';')] finds it: text
    the reader raises on, or a table and how it was read. *)
Inductive csv_file : Type :=
| Unreadable
| CsvWith (how : Reading) (df : DataFrame).

(** A table of numbers whose rows pandas numbers. *)
Definition Csv (df : DataFrame) : csv_file := CsvWith plain df.

Definition read_csv (file : csv_file) : result (Reading * DataFrame) :=
  match file with
  | Unreadable => Raise ParserError
  | CsvWith how df => Ok (how, df)
  end.

(** The form field [chunks_json] as [json.loads] finds it: text that is not
    JSON, or the text of a JSON value. *)
Inductive json_text : Type :=
| NotJson
| Json (value : json).

Definition json_loads (chunks_json : json_text) : result json :=
  match chunks_json with
  | NotJson => Raise JSONDecodeError
  | Json value => Ok value
  end.

Inductive response : Type :=
| Response (result : list ResultRecord)
| HTTPException (status_code : Z) (detail : string).

(** ** Analysers and the request handler

    [np_sqrt] is numpy's square root and [find_peaks x height distance] is
    [scipy.signal.find_peaks(x, height=height, distance=distance)[0]]:
    library functions, left abstract. *)

Local Open Scope string_scope.
Local Open Scope pyfloat_scope.

Section Pipeline.

Variable np_sqrt : Q -> Q.
Variable find_peaks : list Q -> Q -> Z -> list nat.

(** [np.std(a)]: the root of the mean squared deviation from the mean. *)
Definition np_std (a : list Q) : Q :=
  let m := np_mean a in
  np_sqrt (np_mean (np_square (map (fun x => x - m) a))).

(** Lines 38-52.  [gsr_data] is the Series the handler passes, cut out of
    a frame with the index [index]; [int(1.0 * sampling_rate)] is
    [sampling_rate]. *)
Definition analyze_gsr_on (index : Index) (gsr_data : Series) (sampling_rate : Z)
  : result (Q * Q) :=
  if (List.length gsr_data =? 0)%nat then Ok (0, 0)
  else
    let scr_peaks := find_peaks (values gsr_data) 0.1 sampling_rate in
    at_peaks <- series_getitem_on index gsr_data scr_peaks ;;
    let mean := np_mean (values gsr_data) in
    let scr_amplitudes := map (fun v => v - mean) at_peaks in
    let scr_amplitude :=
      if (0 <? List.length scr_amplitudes)%nat then np_mean scr_amplitudes else 0 in
    duration <- py_div (inject_Z (Z.of_nat (List.length gsr_data))) (inject_Z sampling_rate) ;;
    scr_frequency <- py_div (inject_Z (Z.of_nat (List.length scr_peaks))) duration ;;
    Ok (scr_amplitude, scr_frequency).

(** [analyze_gsr] on a Series whose labels are row numbers. *)
Definition analyze_gsr (gsr_data : Series) (sampling_rate : Z) : result (Q * Q) :=
  analyze_gsr_on RangeIndex gsr_data sampling_rate.

(** Line 113: the differences between the positions of the rising edges of
    the segment as it is, missing values included. *)
Definition ppg_rr_intervals (ppg_segment : list cell) : list Z :=
  np_diff Z.sub (np_where (map cell_pos (np_diff cell_sub ppg_segment))).

Definition intervals_as_floats (rr : list Z) : list Q := map inject_Z rr.

(** Lines 111-118. *)
Definition window_ppg_emotion (ppg_segment : list cell) : string :=
  if negb (forallb isnull ppg_segment) then
    let rr := ppg_rr_intervals ppg_segment in
    if (1 <? List.length rr)%nat then
      let ppg_sdnn := np_std (intervals_as_floats rr) in
      let ppg_rmssd :=
        np_sqrt (np_mean (np_square (intervals_as_floats (np_diff Z.sub rr)))) in
      classify_ppg_emotion ppg_sdnn ppg_rmssd
    else "Neutral/Calm"
  else "Neutral/Calm".

(** Lines 120-123. *)
Definition window_gsr_emotion_on (index : Index) (gsr_segment : list (nat * cell))
  (sampling_rate : Z) : result string :=
  if negb (forallb isnull (map snd gsr_segment)) then
    '(scr_amplitude, scr_frequency) <-
      analyze_gsr_on index (dropna gsr_segment) sampling_rate ;;
    Ok (classify_gsr_emotion scr_amplitude scr_frequency)
  else Ok "Neutral/Calm".

Definition window_gsr_emotion (gsr_segment : list (nat * cell)) (sampling_rate : Z)
  : result string :=
  window_gsr_emotion_on RangeIndex gsr_segment sampling_rate.

(** The body of the loop, lines 102-131, for one chunk; [how] is how the
    frame was read and [df] its rows after line 85. *)
Definition process_chunk_on (how : Reading) (df : list timed_sample) (sampling_rate : Z)
  (chunk : json) : result ResultRecord :=
  ts0 <- getitem_key chunk "timestamp" ;;
  start_time <- getitem_index ts0 0 ;;
  ts1 <- getitem_key chunk "timestamp" ;;
  end_time <- getitem_index ts1 1 ;;
  text <- getitem_key chunk "text" ;;
  ppg_rows <- window df start_time end_time ;;
  ppg_segment <- astype_float (ppg_text how) ppg_rows (map ppg ppg_rows) ;;
  gsr_rows <- window df start_time end_time ;;
  gsr_segment <- astype_float (gsr_text how) gsr_rows
                   (map (fun r => (label r, gsr r)) gsr_rows) ;;
  let ppg_emotion := window_ppg_emotion ppg_segment in
  gsr_emotion <- window_gsr_emotion_on (index how) gsr_segment sampling_rate ;;
  let combined_emotion := combine_emotions ppg_emotion gsr_emotion in
  Ok {| timestamp := (start_time, end_time); text := text; emotion := combined_emotion |}.

(** The loop body on a table of numbers whose rows pandas numbered. *)
Definition process_chunk (df : list timed_sample) (sampling_rate : Z) (chunk : json)
  : result ResultRecord :=
  process_chunk_on plain df sampling_rate chunk.

(** The [for] loop: [results] grows by one record per chunk, and the first
    exception ends the loop. *)
Fixpoint process_chunks_on (how : Reading) (df : list timed_sample) (sampling_rate : Z)
  (chunks : list json) (results : list ResultRecord) : result (list ResultRecord) :=
  match chunks with
  | [] => Ok results
  | chunk :: rest =>
      r <- process_chunk_on how df sampling_rate chunk ;;
      process_chunks_on how df sampling_rate rest (results ++ [r])%list
  end.

(** The [try] block of [analyze_sensors]. *)
Definition analyze_sensors_body (file : csv_file) (chunks_json : json_text)
  : result (list ResultRecord) :=
  '(how, table) <- read_csv file ;;
  df <- prepare (index how) table ;;
  chunks_data <- json_loads chunks_json ;;
  let sampling_rate := 100%Z in
  chunks <- getitem_key chunks_data "chunks" ;;
  chunks <- py_iter chunks ;;
  process_chunks_on (text_cells how table) df sampling_rate chunks [].

(** The handler with its two [except] clauses. *)
Definition analyze_sensors (file : csv_file) (chunks_json : json_text) : response :=
  match analyze_sensors_body file chunks_json with
  | Ok results => Response results
  | Raise JSONDecodeError => HTTPException 400 "Invalid JSON format in chunks_json."
  | Raise _ => HTTPException 500 "Error processing sensor data."
  end.

End Pipeline.

(** ** Derived views of the loop body *)

(** The features lines 113-117 compute, [None] where the source leaves
    [ppg_sdnn] and [ppg_rmssd] unassigned. *)
Definition window_ppg_features (np_sqrt : Q -> Q) (ppg_segment : list cell)
  : option (Q * Q) :=
  if negb (forallb isnull ppg_segment) then
    let rr := ppg_rr_intervals ppg_segment in
    if (1 <? List.length rr)%nat then
      Some (np_std np_sqrt (intervals_as_floats rr),
            np_sqrt (np_mean (np_square (intervals_as_floats (np_diff Z.sub rr)))))
    else None
  else None.

(** What a record copies from its chunk: [chunk["timestamp"][0]],
    [chunk["timestamp"][1]] and [chunk["text"]] ([JNull] stands in where the
    chunk has no such part, in which case the loop has raised before). *)
Definition or_null (r : result json) : json :=
  match r with
  | Ok v => v
  | Raise _ => JNull
  end.

Definition chunk_bound (chunk : json) (i : nat) : json :=
  or_null (ts <- getitem_key chunk "timestamp" ;; getitem_index ts i).

Definition chunk_window (chunk : json) : (json * json) * json :=
  ((chunk_bound chunk 0, chunk_bound chunk 1), or_null (getitem_key chunk "text")).

Definition record_window (r : ResultRecord) : (json * json) * json :=
  (timestamp r, text r).

Definition neutral_record (chunk : json) : ResultRecord :=
  {| timestamp := fst (chunk_window chunk);
     text := snd (chunk_window chunk);
     emotion := "Neutral/Calm" |}.

(** [c] can only raise exceptions of the classes in [E]. *)
Definition raises_only {A : Type} (E : exn -> Prop) (c : result A) : Prop :=
  forall e, c = Raise e -> E e.

Definition not_decode_error (e : exn) : Prop := e <> JSONDecodeError.

(** ** The PPG analyser of the specification

    Section 4.3 of the specification, word for word, on a segment from which
    absent values have been excluded: first differences, positions of the
    strictly positive ones, differences of those positions; fewer than two
    intervals leave the features undefined ([None]). *)

Definition present (segment : list cell) : list Q :=
  flat_map (fun c => match c with Some x => [x] | None => [] end) segment.

Definition spec_rr_intervals (segment : list Q) : list Z :=
  np_diff Z.sub (np_where (map (fun d => d >? 0) (np_diff Qminus segment))).

Definition spec_ppg_analyzer (np_sqrt : Q -> Q) (segment : list Q) : option (Q * Q) :=
  let intervals := spec_rr_intervals segment in
  if (List.length intervals <? 2)%nat then None
  else
    Some (np_std np_sqrt (intervals_as_floats intervals),
          np_sqrt (np_mean (np_square (intervals_as_floats (np_diff Z.sub intervals))))).

(** The label the specification gives a window's PPG segment: the analyser
    on the present values, the classifier on its features, and the default
    label when they are undefined. *)
Definition spec_ppg_emotion (np_sqrt : Q -> Q) (segment : list cell) : string :=
  match spec_ppg_analyzer np_sqrt (present segment) with
  | Some (sdnn, rmssd) => classify_ppg_emotion sdnn rmssd
  | None => "Neutral/Calm"
  end.

(** ** The time format of the specification

    ["<minutes>:<seconds>.<sample-index>"]: the two leading parts are texts
    that [int] accepts, the sample index is any text free of the two
    separators. *)

Fixpoint count_char (c : ascii) (s : string) : nat :=
  match s with
  | EmptyString => 0
  | String d r => if Ascii.eqb d c then S (count_char c r) else count_char c r
  end.

Definition time_format (t : string) (total_seconds : Z) : Prop :=
  exists minutes seconds sample a b,
    t = minutes ++ ":" ++ seconds ++ "." ++ sample /\
    py_int minutes = Ok a /\
    py_int seconds = Ok b /\
    count_char ":" sample = 0%nat /\
    count_char "." sample = 0%nat /\
    total_seconds = (a * 60 + b)%Z.

(** The characters [int] tolerates in its argument. *)
Definition int_char (c : ascii) : bool :=
  is_space c || is_digit c || is_underscore c
  || Ascii.eqb c "+"%char || Ascii.eqb c "-"%char.

(** A plain decimal numeral: one to 4300 digits and nothing else; its
    value is read digit by digit. *)
Definition is_numeral (s : string) : bool :=
  let l := list_ascii_of_string s in
  negb (List.length l =? 0)%nat && forallb is_digit l
  && (List.length l <=? max_str_digits)%nat.

Definition decimal_value (s : string) : Z :=
  fold_left (fun acc c => (10 * acc + digit_value c)%Z) (list_ascii_of_string s) 0%Z.

(** ** Reference instances of the library functions

    Used to run the model on concrete requests.  [sqrt_floor] is a rational
    square root, exact on squares of rationals.  [find_peaks_ref] follows
    scipy: the middle of every plateau that is higher than both its
    neighbours, at least [height] high, and, from the highest peak down,
    no other peak closer than [distance] samples. *)

Definition sqrt_floor (q : Q) : Q :=
  Z.sqrt (Qnum q * Z.pos (Qden q)) # Qden q.

Fixpoint local_maxima_from (i : nat) (prev : Q) (rising : option nat) (x : list Q)
  : list nat :=
  match x with
  | [] => []
  | y :: rest =>
      if prev <? y then local_maxima_from (S i) y (Some i) rest
      else if y <? prev then
        match rising with
        | Some l => ((l + (i - 1)) / 2)%nat :: local_maxima_from (S i) y None rest
        | None => local_maxima_from (S i) y None rest
        end
      else local_maxima_from (S i) y rising rest
  end.

Definition local_maxima (x : list Q) : list nat :=
  match x with
  | [] => []
  | x0 :: rest => local_maxima_from 1 x0 None rest
  end.

Definition value_at (x : list Q) (p : nat) : Q := nth p x 0.

(** Peaks ordered from the highest down; of two equally high peaks the
    later one comes first. *)
Fixpoint insert_by_height (x : list Q) (p : nat) (sorted : list nat) : list nat :=
  match sorted with
  | [] => [p]
  | q :: rest =>
      if value_at x q <=? value_at x p then p :: sorted
      else q :: insert_by_height x p rest
  end.

Definition by_height (x : list Q) (peaks : list nat) : list nat :=
  fold_left (fun sorted p => insert_by_height x p sorted) peaks [].

Definition too_close (distance : Z) (p q : nat) : bool :=
  negb (p =? q)%nat && (Z.abs (Z.of_nat p - Z.of_nat q) <? distance)%Z.

Definition mem_nat (p : nat) (l : list nat) : bool := existsb (Nat.eqb p) l.

Definition select_by_distance (x : list Q) (peaks : list nat) (distance : Z) : list nat :=
  let removed :=
    fold_left
      (fun removed p =>
         if mem_nat p removed then removed
         else (removed ++ filter (too_close distance p) peaks)%list)
      (by_height x peaks) [] in
  filter (fun p => negb (mem_nat p removed)) peaks.

Definition find_peaks_ref (x : list Q) (height : Q) (distance : Z) : list nat :=
  let peaks := filter (fun p => value_at x p >=? height) (local_maxima x) in
  select_by_distance x peaks distance.

(** ** Requests used below *)


(** A window [{"timestamp": [start, end], "text": text}]. *)
Definition chunk_json (start_time end_time : Q) (text : string) : json :=
  JObj [("timestamp", JArr [JNum start_time; JNum end_time]); ("text", JStr text)].

(** A chunk of the expected shape: an object whose ["timestamp"] is a list
    that starts with two numbers and whose ["text"] is a string. *)
Definition well_formed_chunk (chunk : json) : bool :=
  match getitem_key chunk "timestamp", getitem_key chunk "text" with
  | Ok (JArr (JNum _ :: JNum _ :: _)), Ok (JStr _) => true
  | _, _ => false
  end.

Definition chunks_payload (chunks : list json) : json_text :=
  Json (JObj [("chunks", JArr chunks)]).

Definition row (t : string) (p g : cell) : sample :=
  {| time := VStr t; ppg_signal := p; gsr_signal := g |}.

(** Every other PPG cell is missing; no GSR column. *)
Definition gappy_ppg_segment : list cell :=
  [Some 1; None; Some 2; None; Some 3; None; Some 4].

Definition gappy_ppg_file : csv_file :=
  Csv {| has_time := true; has_ppg_signal := true; has_gsr_signal := false;
         rows := map (fun c => row "0:00.000" c None) gappy_ppg_segment |}.

(** Two samples in second 0, then a GSR peak in second 1. *)
Definition late_peak_file : csv_file :=
  Csv {| has_time := true; has_ppg_signal := true; has_gsr_signal := true;
         rows := [ row "0:00.000" (Some 0) (Some 0);
                   row "0:00.001" (Some 0) (Some 0);
                   row "0:01.000" (Some 0) (Some 0);
                   row "0:01.001" (Some 0) (Some 1);
                   row "0:01.002" (Some 0) (Some 0) ] |}.

(** The rows of a file after line 85. *)
Definition prepared_rows (file : csv_file) : list timed_sample :=
  match '(how, table) <- read_csv file ;; prepare (index how) table with
  | Ok kept => kept
  | Raise _ => []
  end.

Definition gappy_ppg_rows : list timed_sample :=
  Eval vm_compute in prepared_rows gappy_ppg_file.

Definition gappy_ppg_record : ResultRecord :=
  {| timestamp := (JNum 0, JNum 0); text := JStr "a"; emotion := "Neutral/Calm" |}.

(** A file with two rows and no [time] column. *)
Definition untimed_file : DataFrame :=
  {| has_time := false; has_ppg_signal := true; has_gsr_signal := true;
     rows := [ {| time := VInt 0; ppg_signal := Some 1; gsr_signal := Some 0.7 |};
               {| time := VInt 0; ppg_signal := Some 2; gsr_signal := Some 0.1 |} ] |}.

(** The file with the header [ppg_signal] and the rows [0:00.000;1],
    [0:00.000;2], [0:00.000;3], [0:00.000;4]: no [time] column, and one
    field more in the rows than in the header. *)
Definition first_field_reading : Reading :=
  {| index := FirstField [VStr "0:00.000"; VStr "0:00.000"; VStr "0:00.000"; VStr "0:00.000"];
     ppg_text := []; gsr_text := [] |}.

Definition first_field_table : DataFrame :=
  {| has_time := false; has_ppg_signal := true; has_gsr_signal := false;
     rows := [ {| time := VInt 0; ppg_signal := Some 1; gsr_signal := None |};
               {| time := VInt 0; ppg_signal := Some 2; gsr_signal := None |};
               {| time := VInt 0; ppg_signal := Some 3; gsr_signal := None |};
               {| time := VInt 0; ppg_signal := Some 4; gsr_signal := None |} ] |}.

(** ** Label sets

    The strings the two classifiers return, and the strings a record's
    emotion is taken from. *)

Definition ppg_labels : list string :=
  ["Happy"; "Sad"; "Angry"; "Neutral"; "Neutral/Calm"].

Definition gsr_labels : list string :=
  ["Happy/Angry"; "Sad"; "Neutral"; "Neutral/Calm"].

Definition emotion_labels : list string :=
  ["Happy"; "Sad"; "Angry"; "Neutral"; "Neutral/Calm"; "Happy/Angry"].

(** ** Window membership

    [in_window a b r]: the time of row [r] lies in [[a, b]], both ends
    included. *)
Definition in_window (a b : Q) (r : timed_sample) : bool :=
  (inject_Z (seconds r) >=? a) && (inject_Z (seconds r) <=? b).

Definition late_peak_rows : list timed_sample :=
  Eval vm_compute in prepared_rows late_peak_file.

(** The value [convert_time_to_seconds] is applied to for the row at
    position [i]: its [time] cell, or its index label when the file has no
    such column (lines 80-84). *)
Definition time_cell (index : Index) (df : DataFrame) (i : nat) (r : sample) : pyval :=
  if has_time df then time r else index_label index i.

(** A time that a float64 holds exactly: pandas keeps the parsed times as
    int64, and as float64 once a row is dropped. *)
Definition exact_as_float (s : Z) : Prop := (Z.abs s <= 2 ^ 53)%Z.

Definition first_field_rows : list timed_sample :=
  Eval vm_compute in prepared_rows (CsvWith first_field_reading first_field_table).

(** A file with a PPG column only, and one with a GSR column only. *)
Definition ppg_only_table : DataFrame :=
  {| has_time := true; has_ppg_signal := true; has_gsr_signal := false;
     rows := map (fun c => row "0:00.000" c None) gappy_ppg_segment |}.

Definition gsr_only_table : DataFrame :=
  {| has_time := true; has_ppg_signal := false; has_gsr_signal := true;
     rows := [ row "0:00.000" None (Some 0);
               row "0:00.001" None (Some 1);
               row "0:00.002" None (Some 0) ] |}.

(** A file with the columns [time] and [ppg_signal] whose second row has
    the text [abc] for a PPG cell. *)
Definition text_cell_reading : Reading :=
  {| index := RangeIndex; ppg_text := [1%nat]; gsr_text := [] |}.

Definition text_cell_table : DataFrame :=
  {| has_time := true; has_ppg_signal := true; has_gsr_signal := false;
     rows := [ row "0:00.000" (Some 1) None;
               row "0:00.001" None None;
               row "0:01.000" (Some 3) None ] |}.

Definition text_cell_rows : list timed_sample :=
  Eval vm_compute in prepared_rows (CsvWith text_cell_reading text_cell_table).

(** [text_in_window text_rows a b r]: row [r] lies in the window [[a, b]]
    and is one of the rows [text_rows]. *)
Definition text_in_window (text_rows : list nat) (a b : Q) (r : timed_sample) : bool :=
  in_window a b r && existsb (Nat.eqb (label r)) text_rows.

(** A chunk from which the loop body cannot read its three parts: it is no
    object, has no ["timestamp"] or no ["text"], or its ["timestamp"] has
    no first or no second item. *)
Definition misshapen_chunk (chunk : json) : bool :=
  match getitem_key chunk "timestamp" with
  | Ok ts =>
      match getitem_index ts 0, getitem_index ts 1, getitem_key chunk "text" with
      | Ok _, Ok _, Ok _ => false
      | _, _, _ => true
      end
  | Raise _ => true
  end.

(** A Series whose index labels are the consecutive row numbers
    [i, i+1, ...]: a window cut out of a table from which no row in between
    was dropped. *)
Definition labelled_from (i : nat) (s : Series) : Prop :=
  map fst s = seq i (List.length s).

Definition Zsum (l : list Z) : Z := fold_right Z.add 0%Z l.

(** * Properties *)

(** ** Float comparisons *)

Lemma Qltb_lt (a b : Q) : (a <? b) = true <-> a < b.
Proof.
  unfold Qltb. rewrite negb_true_iff.
  split; intro H.
  - apply Qnot_le_lt. intro L. apply Qle_bool_iff in L. congruence.
  - destruct (Qle_bool b a) eqn:E; [| reflexivity].
    apply Qle_bool_iff in E. exfalso. exact (Qlt_not_le _ _ H E).
Qed.

Lemma Qleb_le (a b : Q) : (a <=? b) = true <-> a <= b.
Proof. unfold Qleb. apply Qle_bool_iff. Qed.

Lemma Qltb_spec (a b : Q) : reflect (a < b) (a <? b).
Proof. apply iff_reflect. symmetry. apply Qltb_lt. Qed.

Lemma Qleb_spec (a b : Q) : reflect (a <= b) (a <=? b).
Proof. apply iff_reflect. symmetry. apply Qleb_le. Qed.

Ltac by_comparisons :=
  repeat match goal with
         | |- context [?a <? ?b] => destruct (Qltb_spec a b)
         | |- context [Qleb ?a ?b] => destruct (Qleb_spec a b)
         end;
  simpl.

(** ** PPG classifier *)

(** Inside the inclusive box of the fourth rule, borders included, no
    strict rule holds and the answer is "Neutral". *)
Lemma classify_ppg_emotion_box (sdnn rmssd : Q) :
  50 <= sdnn <= 100 -> 30 <= rmssd <= 50 ->
  classify_ppg_emotion sdnn rmssd = "Neutral".
Proof.
  intros [s1 s2] [r1 r2]. unfold classify_ppg_emotion.
  by_comparisons; try reflexivity; lra.
Qed.

(** C1 (as the code has it): at each of the four threshold corners
    (50,30), (100,30), (75,40) and (100,50) the classifier answers
    "Neutral": every corner lies inside the inclusive box of the fourth
    rule and satisfies none of the strict rules before it. *)
Theorem classify_ppg_emotion_corners :
  classify_ppg_emotion 50 30 = "Neutral" /\
  classify_ppg_emotion 100 30 = "Neutral" /\
  classify_ppg_emotion 75 40 = "Neutral" /\
  classify_ppg_emotion 100 50 = "Neutral".
Proof. repeat split; reflexivity. Qed.

(** C1 as stated does not hold: the corners are not answered "Neutral",
    "Angry", "Neutral", "Neutral/Calm" (at (100,30) and (100,50) the answer
    is "Neutral"). *)
Lemma classify_ppg_emotion_corners_as_stated_fail :
  ~ (classify_ppg_emotion 50 30 = "Neutral" /\
     classify_ppg_emotion 100 30 = "Angry" /\
     classify_ppg_emotion 75 40 = "Neutral" /\
     classify_ppg_emotion 100 50 = "Neutral/Calm").
Proof.
  intros (_ & angry & _ & _).
  vm_compute in angry. discriminate angry.
Qed.

(** C2: the classifier is the ordered decision list of section 4.4, first
    match winning, with the table's strict and inclusive bounds, for all
    inputs: each label is returned exactly when its rule holds and no
    earlier rule does. *)
Theorem classify_ppg_emotion_decision_list (sdnn rmssd : Q) :
  let happy := sdnn > 100 /\ rmssd > 50 in
  let sad := sdnn < 50 /\ rmssd < 30 in
  let angry := sdnn > 100 /\ rmssd < 30 in
  let neutral := (50 <= sdnn /\ sdnn <= 100) /\ (30 <= rmssd /\ rmssd <= 50) in
  (classify_ppg_emotion sdnn rmssd = "Happy" <-> happy) /\
  (classify_ppg_emotion sdnn rmssd = "Sad" <-> ~ happy /\ sad) /\
  (classify_ppg_emotion sdnn rmssd = "Angry" <-> ~ happy /\ ~ sad /\ angry) /\
  (classify_ppg_emotion sdnn rmssd = "Neutral" <->
     ~ happy /\ ~ sad /\ ~ angry /\ neutral) /\
  (classify_ppg_emotion sdnn rmssd = "Neutral/Calm" <->
     ~ happy /\ ~ sad /\ ~ angry /\ ~ neutral).
Proof.
  cbv zeta. unfold classify_ppg_emotion.
  by_comparisons;
    repeat split; intros; try discriminate; try reflexivity;
    try lra; try tauto.
Qed.

(** ** Fusion rule *)

(** C4: for every pair of labels, the fused label is "Happy/Angry" when the
    GSR label is "Happy/Angry", and the PPG label otherwise. *)
Theorem combine_emotions_precedence (ppg_label gsr_label : string) :
  (gsr_label = "Happy/Angry" ->
   combine_emotions ppg_label gsr_label = "Happy/Angry") /\
  (gsr_label <> "Happy/Angry" ->
   combine_emotions ppg_label gsr_label = ppg_label).
Proof.
  unfold combine_emotions.
  destruct (String.eqb_spec gsr_label "Happy/Angry") as [-> | ne]; split; intro H.
  - reflexivity.
  - contradiction.
  - contradiction.
  - reflexivity.
Qed.

Lemma combine_emotions_precedence_witness :
  combine_emotions "Sad" "Happy/Angry" = "Happy/Angry" /\
  combine_emotions "Sad" "Neutral" = "Sad".
Proof.
  split.
  - apply (proj1 (combine_emotions_precedence "Sad" "Happy/Angry")). reflexivity.
  - apply (proj2 (combine_emotions_precedence "Sad" "Neutral")). discriminate.
Defined.

(** ** Time parser *)

Section Split.

Variable sep : ascii.

Lemma split_not_nil (s : string) : split sep s <> [].
Proof.
  destruct s as [| c r]; simpl; [discriminate |].
  destruct (Ascii.eqb c sep); [discriminate |].
  destruct (split sep r); discriminate.
Qed.

Lemma split_without_sep (s : string) :
  count_char sep s = 0%nat -> split sep s = [s].
Proof.
  induction s as [| c r IH]; simpl; intro H; [reflexivity |].
  destruct (Ascii.eqb c sep); [discriminate |].
  rewrite (IH H). reflexivity.
Qed.

Lemma split_at_first_sep (a b : string) :
  count_char sep a = 0%nat ->
  split sep (a ++ String sep b) = a :: split sep b.
Proof.
  induction a as [| c r IH]; simpl; intro H.
  - rewrite Ascii.eqb_refl. reflexivity.
  - destruct (Ascii.eqb c sep); [discriminate |].
    rewrite (IH H). reflexivity.
Qed.

Lemma split_one_part (s a : string) :
  split sep s = [a] -> s = a /\ count_char sep a = 0%nat.
Proof.
  revert a. induction s as [| c r IH]; simpl; intros a H.
  - injection H as <-. split; reflexivity.
  - destruct (Ascii.eqb c sep) eqn:E.
    + injection H as _ H. exfalso. exact (split_not_nil r H).
    + destruct (split sep r) as [| p ps] eqn:S;
        [exfalso; exact (split_not_nil r S) |].
      injection H as <- ->.
      destruct (IH p eq_refl) as [-> Hc].
      split; [reflexivity |]. simpl. rewrite E. exact Hc.
Qed.

Lemma split_two_parts (s a b : string) :
  split sep s = [a; b] ->
  s = a ++ String sep b /\ count_char sep a = 0%nat /\ count_char sep b = 0%nat.
Proof.
  revert a. induction s as [| c r IH]; simpl; intros a H; [discriminate |].
  destruct (Ascii.eqb c sep) eqn:E.
  - injection H as <- H.
    apply Ascii.eqb_eq in E. subst c.
    destruct (split_one_part r b H) as [-> Hc].
    split; [reflexivity |]. split; [reflexivity | exact Hc].
  - destruct (split sep r) as [| p ps] eqn:S; [discriminate |].
    injection H as <- ->.
    destruct (IH p eq_refl) as (-> & Ha & Hb).
    split; [reflexivity |]. split; [| exact Hb].
    simpl. rewrite E. exact Ha.
Qed.

Lemma count_char_app (a b : string) :
  count_char sep (a ++ b) = (count_char sep a + count_char sep b)%nat.
Proof.
  induction a as [| c r IH]; simpl; [reflexivity |].
  destruct (Ascii.eqb c sep); simpl; rewrite IH; reflexivity.
Qed.

End Split.

Lemma lstrip_chars (l : list ascii) :
  Forall (fun c => int_char c = true) (lstrip l) ->
  Forall (fun c => int_char c = true) l.
Proof.
  induction l as [| c r IH]; simpl; intro H; [constructor |].
  destruct (is_space c) eqn:E; [| exact H].
  constructor; [| exact (IH H)].
  unfold int_char. rewrite E. reflexivity.
Qed.

Lemma strip_chars (l : list ascii) :
  Forall (fun c => int_char c = true) (strip l) ->
  Forall (fun c => int_char c = true) l.
Proof.
  unfold strip. intro H.
  apply lstrip_chars.
  rewrite <- (rev_involutive (lstrip l)). apply Forall_rev.
  apply lstrip_chars.
  rewrite <- (rev_involutive (lstrip (rev (lstrip l)))). apply Forall_rev.
  exact H.
Qed.

Lemma digits_value_chars (l : list ascii) (acc : Z) (prev_us : bool) (z : Z) :
  digits_value acc prev_us l = Some z ->
  Forall (fun c => int_char c = true) l.
Proof.
  revert acc prev_us. induction l as [| c r IH]; simpl; intros acc prev_us H;
    [constructor |].
  destruct (is_digit c) eqn:D.
  - constructor; [| exact (IH _ _ H)].
    unfold int_char. rewrite D. apply orb_true_iff. left.
    rewrite orb_true_r. reflexivity.
  - destruct (is_underscore c) eqn:U; [| discriminate].
    destruct prev_us; [discriminate |].
    constructor; [| exact (IH _ _ H)].
    unfold int_char. rewrite U. rewrite !orb_true_r. reflexivity.
Qed.

Lemma unsigned_value_chars (l : list ascii) (z : Z) :
  unsigned_value l = Some z ->
  Forall (fun c => int_char c = true) l.
Proof.
  unfold unsigned_value. destruct l as [| c r]; [discriminate |].
  destruct (is_digit c) eqn:D; simpl; [| discriminate].
  destruct (_ <=? _)%nat; [| discriminate].
  intro H. constructor; [| exact (digits_value_chars _ _ _ _ H)].
  unfold int_char. rewrite D. rewrite orb_true_r. reflexivity.
Qed.

Lemma py_int_chars (s : string) (z : Z) :
  py_int s = Ok z ->
  Forall (fun c => int_char c = true) (list_ascii_of_string s).
Proof.
  unfold py_int. intro H. apply strip_chars.
  destruct (strip (list_ascii_of_string s)) as [| c r]; [discriminate |].
  destruct (Ascii.eqb c "-") eqn:M.
  - destruct (unsigned_value r) as [u |] eqn:U; [| discriminate].
    constructor; [| exact (unsigned_value_chars _ _ U)].
    unfold int_char. rewrite M. rewrite !orb_true_r. reflexivity.
  - destruct (Ascii.eqb c "+") eqn:P.
    + destruct (unsigned_value r) as [u |] eqn:U; [| discriminate].
      constructor; [| exact (unsigned_value_chars _ _ U)].
      unfold int_char. rewrite P. rewrite !orb_true_r. reflexivity.
    + destruct (unsigned_value (c :: r)) as [u |] eqn:U; [| discriminate].
      exact (unsigned_value_chars _ _ U).
Qed.

Lemma count_char_none (c : ascii) (s : string) :
  int_char c = false ->
  Forall (fun d => int_char d = true) (list_ascii_of_string s) ->
  count_char c s = 0%nat.
Proof.
  intro Hc. induction s as [| d r IH]; simpl; intro H; [reflexivity |].
  inversion H as [| ? ? Hd Hr]; subst.
  destruct (Ascii.eqb_spec d c) as [-> | _]; [congruence | exact (IH Hr)].
Qed.

Lemma py_int_no_separator (s : string) (z : Z) :
  py_int s = Ok z ->
  count_char ":" s = 0%nat /\ count_char "." s = 0%nat.
Proof.
  intro H. apply py_int_chars in H.
  split; apply count_char_none; try exact H; reflexivity.
Qed.

Lemma digit_not_space (c : ascii) : is_digit c = true -> is_space c = false.
Proof.
  unfold is_digit, is_space. intro H.
  apply andb_true_iff in H. destruct H as [H1 H2].
  apply Nat.leb_le in H1. apply Nat.leb_le in H2.
  repeat match goal with
         | |- context [(?a <=? ?b)%nat] => destruct (Nat.leb_spec a b)
         | |- context [(?a =? ?b)%nat] => destruct (Nat.eqb_spec a b)
         end; simpl; try reflexivity; lia.
Qed.

Lemma lstrip_digits (l : list ascii) : forallb is_digit l = true -> lstrip l = l.
Proof.
  destruct l as [| c r]; simpl; intro H; [reflexivity |].
  apply andb_true_iff in H. destruct H as [H _].
  rewrite (digit_not_space c H). reflexivity.
Qed.

Lemma forallb_rev {A : Type} (f : A -> bool) (l : list A) :
  forallb f l = true -> forallb f (rev l) = true.
Proof.
  rewrite !forallb_forall. intros H x I. apply H. apply in_rev. exact I.
Qed.

Lemma strip_digits (l : list ascii) : forallb is_digit l = true -> strip l = l.
Proof.
  intro H. unfold strip.
  rewrite (lstrip_digits l H), (lstrip_digits _ (forallb_rev _ _ H)).
  apply rev_involutive.
Qed.

Lemma digits_value_digits (l : list ascii) (acc : Z) :
  forallb is_digit l = true ->
  digits_value acc false l
  = Some (fold_left (fun a c => (10 * a + digit_value c)%Z) l acc).
Proof.
  revert acc. induction l as [| c r IH]; simpl; intros acc H; [reflexivity |].
  apply andb_true_iff in H. destruct H as [Hc Hr].
  rewrite Hc. apply IH. exact Hr.
Qed.

Lemma filter_all {A : Type} (f : A -> bool) (l : list A) :
  forallb f l = true -> filter f l = l.
Proof.
  induction l as [| x r IH]; simpl; intro H; [reflexivity |].
  apply andb_true_iff in H. destruct H as [Hx Hr].
  rewrite Hx, (IH Hr). reflexivity.
Qed.

(** [int] accepts every plain decimal numeral and returns its value. *)
Lemma py_int_numeral (s : string) :
  is_numeral s = true -> py_int s = Ok (decimal_value s).
Proof.
  unfold is_numeral, py_int, decimal_value. intro H.
  apply andb_true_iff in H. destruct H as [H len].
  apply andb_true_iff in H. destruct H as [nonempty digits].
  rewrite (strip_digits _ digits).
  destruct (list_ascii_of_string s) as [| c r]; [discriminate nonempty |].
  pose proof digits as D. simpl in D. apply andb_true_iff in D. destruct D as [Dc Dr].
  assert (minus : Ascii.eqb c "-" = false).
  { destruct (Ascii.eqb_spec c "-") as [-> |]; [discriminate Dc | reflexivity]. }
  assert (plus : Ascii.eqb c "+" = false).
  { destruct (Ascii.eqb_spec c "+") as [-> |]; [discriminate Dc | reflexivity]. }
  rewrite minus, plus. unfold unsigned_value.
  rewrite (filter_all _ _ digits), Dc, len. cbn [andb].
  rewrite (digits_value_digits _ _ Dr). reflexivity.
Qed.

Lemma convert_time_to_seconds_sound (t : string) (n : Z) :
  time_format t n -> convert_time_to_seconds (VStr t) = Ok (Some n).
Proof.
  intros (m & s & x & a & b & -> & Hm & Hs & Hx1 & Hx2 & ->).
  destruct (py_int_no_separator _ _ Hm) as [Hm1 _].
  destruct (py_int_no_separator _ _ Hs) as [Hs1 Hs2].
  unfold convert_time_to_seconds, convert_time_body. simpl str_split. simpl bind.
  change (m ++ ":" ++ s ++ "." ++ x) with (m ++ String ":" (s ++ "." ++ x)).
  rewrite (split_at_first_sep _ _ _ Hm1).
  rewrite split_without_sep.
  2:{ rewrite count_char_app. simpl. rewrite Hs1, Hx1. reflexivity. }
  simpl.
  rewrite (split_at_first_sep _ _ _ Hs2).
  rewrite (split_without_sep _ _ Hx2). simpl.
  rewrite Hm. simpl. rewrite Hs. simpl. reflexivity.
Qed.

Lemma convert_time_body_complete (t : string) (n : Z) :
  convert_time_body (VStr t) = Ok n -> time_format t n.
Proof.
  unfold convert_time_body. simpl str_split. simpl bind.
  destruct (split ":" t) as [| m [| ss [| ? ?]]] eqn:S1; try discriminate.
  simpl.
  destruct (split "." ss) as [| s [| x [| ? ?]]] eqn:S2; try discriminate.
  simpl.
  destruct (py_int m) as [a | e] eqn:Hm; [| discriminate]. simpl.
  destruct (py_int s) as [b | e] eqn:Hs; [| discriminate]. simpl.
  intro H. injection H as <-.
  destruct (split_two_parts _ _ _ _ S1) as (-> & _ & Hss).
  destruct (split_two_parts _ _ _ _ S2) as (-> & _ & Hx).
  rewrite count_char_app in Hss. simpl in Hss.
  exists m, s, x, a, b. repeat split; try assumption. lia.
Qed.

Lemma convert_time_to_seconds_total (v : pyval) :
  convert_time_to_seconds v = Ok None \/
  exists n, convert_time_body v = Ok n /\ convert_time_to_seconds v = Ok (Some n).
Proof.
  unfold convert_time_to_seconds.
  destruct (convert_time_body v) as [n | e] eqn:B.
  - right. exists n. split; reflexivity.
  - left.
    unfold convert_time_body in B.
    destruct v as [t | z | x]; simpl in B; try (injection B as <-; reflexivity).
    destruct (split ":" t) as [| m [| ss [| ? ?]]]; simpl in B;
      try (injection B as <-; reflexivity).
    destruct (split "." ss) as [| s [| x [| ? ?]]]; simpl in B;
      try (injection B as <-; reflexivity).
    unfold py_int in B.
    repeat match type of B with
           | context [match ?o with Some _ => _ | None => _ end] =>
               destruct o; simpl in B
           end;
      try discriminate; injection B as <-; reflexivity.
Qed.

(** A part that [int] refuses makes the whole string unparseable. *)
Lemma convert_time_to_seconds_not_integer (minutes seconds sample : string) :
  py_int minutes = Raise ValueError \/ py_int seconds = Raise ValueError ->
  convert_time_to_seconds (VStr (minutes ++ ":" ++ seconds ++ "." ++ sample)) = Ok None.
Proof.
  intro refused.
  remember (minutes ++ ":" ++ seconds ++ "." ++ sample) as t eqn:Et.
  destruct (convert_time_to_seconds_total (VStr t)) as [N | (n & B & _)];
    [exact N | exfalso].
  unfold convert_time_body in B. cbn [str_split bind] in B.
  destruct (split ":" t) as [| m [| ss [| ? ?]]] eqn:S1; try discriminate B.
  cbn [unpack2 bind] in B.
  destruct (split "." ss) as [| s [| x [| ? ?]]] eqn:S2; try discriminate B.
  cbn [unpack2 bind] in B.
  destruct (py_int m) as [a | e] eqn:Hm; [| discriminate B]. cbn [bind] in B.
  destruct (py_int s) as [b | e] eqn:Hs; [| discriminate B].
  (* exactly one colon, so the first part is [minutes] *)
  destruct (split_two_parts _ _ _ _ S1) as (E1 & Cm & Css).
  assert (colons : count_char ":" t = 1%nat).
  { rewrite E1, count_char_app. simpl. rewrite Cm, Css. reflexivity. }
  rewrite Et, count_char_app in colons. simpl in colons.
  assert (Cmin : count_char ":" minutes = 0%nat) by lia.
  rewrite Et in S1.
  change (minutes ++ ":" ++ seconds ++ "." ++ sample)
    with (minutes ++ String ":" (seconds ++ "." ++ sample)) in S1.
  rewrite (split_at_first_sep _ _ _ Cmin) in S1.
  injection S1 as <- S1.
  destruct (split_one_part _ _ _ S1) as [Ess _].
  (* exactly one dot after it, so the second part is [seconds] *)
  destruct (split_two_parts _ _ _ _ S2) as (E2 & Cs & Cx).
  assert (dots : count_char "." ss = 1%nat).
  { rewrite E2, count_char_app. simpl. rewrite Cs, Cx. reflexivity. }
  rewrite <- Ess, count_char_app in dots. simpl in dots.
  assert (Csec : count_char "." seconds = 0%nat) by lia.
  rewrite <- Ess in S2.
  change (seconds ++ "." ++ sample) with (seconds ++ String "." sample) in S2.
  rewrite (split_at_first_sep _ _ _ Csec) in S2.
  injection S2 as <- _.
  destruct refused as [R | R]; congruence.
Qed.

Lemma time_format_separators (t : string) (n : Z) :
  time_format t n -> count_char ":" t = 1%nat /\ count_char "." t = 1%nat.
Proof.
  intros (m & s & x & a & b & -> & Hm & Hs & Hx1 & Hx2 & _).
  destruct (py_int_no_separator _ _ Hm) as [Hm1 Hm2].
  destruct (py_int_no_separator _ _ Hs) as [Hs1 Hs2].
  rewrite !count_char_app. simpl.
  rewrite Hm1, Hm2, Hs1, Hs2, Hx1, Hx2. split; reflexivity.
Qed.

(** C6: a string ["<minutes>:<seconds>.<sample-index>"] whose minutes and
    seconds [int] accepts parses to [minutes*60 + seconds], in particular
    when both are plain decimal numerals; every other input, string or not,
    gives [None]; no input makes the function raise.  A string without
    exactly one [:] and one [.] gives [None], and so does one whose minutes
    or seconds [int] refuses; "1:30.045" gives 90, "abc" and "1-30" give
    [None]. *)
Theorem convert_time_to_seconds_spec :
  (forall t n, time_format t n -> convert_time_to_seconds (VStr t) = Ok (Some n)) /\
  (forall minutes seconds sample,
      is_numeral minutes = true -> is_numeral seconds = true ->
      count_char ":" sample = 0%nat -> count_char "." sample = 0%nat ->
      convert_time_to_seconds (VStr (minutes ++ ":" ++ seconds ++ "." ++ sample))
      = Ok (Some (decimal_value minutes * 60 + decimal_value seconds)%Z)) /\
  (forall v, (forall t n, v = VStr t -> ~ time_format t n) ->
             convert_time_to_seconds v = Ok None) /\
  (forall v, exists o, convert_time_to_seconds v = Ok o) /\
  (forall t, count_char ":" t <> 1%nat \/ count_char "." t <> 1%nat ->
             convert_time_to_seconds (VStr t) = Ok None) /\
  (forall minutes seconds sample,
      py_int minutes = Raise ValueError \/ py_int seconds = Raise ValueError ->
      convert_time_to_seconds (VStr (minutes ++ ":" ++ seconds ++ "." ++ sample))
      = Ok None) /\
  convert_time_to_seconds (VStr "1:30.045") = Ok (Some 90%Z) /\
  convert_time_to_seconds (VStr "abc") = Ok None /\
  convert_time_to_seconds (VStr "1-30") = Ok None.
Proof.
  assert (other : forall v, (forall t n, v = VStr t -> ~ time_format t n) ->
                            convert_time_to_seconds v = Ok None).
  { intros v H.
    destruct (convert_time_to_seconds_total v) as [N | (n & B & _)]; [exact N |].
    destruct v as [t | z | x]; try discriminate B.
    exfalso. exact (H t n eq_refl (convert_time_body_complete t n B)). }
  split; [exact convert_time_to_seconds_sound |].
  split.
  { intros m s x Hm Hs Hx1 Hx2. apply convert_time_to_seconds_sound.
    exists m, s, x, (decimal_value m), (decimal_value s).
    repeat split; auto using py_int_numeral. }
  split; [exact other |].
  split.
  { intro v. destruct (convert_time_to_seconds_total v) as [N | (n & _ & S)];
      eexists; eassumption. }
  split.
  { intros t H. apply other. intros t' n E F. injection E as <-.
    apply time_format_separators in F. destruct F as [F1 F2].
    destruct H as [H | H]; contradiction. }
  split; [exact convert_time_to_seconds_not_integer |].
  repeat split; reflexivity.
Qed.

Lemma convert_time_to_seconds_spec_witness :
  convert_time_to_seconds (VStr "2:05.017") = Ok (Some 125%Z) /\
  convert_time_to_seconds (VStr "2;05") = Ok None.
Proof.
  split.
  - apply (proj1 convert_time_to_seconds_spec).
    exists "2", "05", "017", 2%Z, 5%Z. repeat split; reflexivity.
  - apply (proj1 (proj2 (proj2 (proj2 (proj2 convert_time_to_seconds_spec))))).
    left. simpl. discriminate.
Defined.

(** ** GSR analyser *)

Lemma py_div_nonzero (a b : Q) : ~ b == 0 -> py_div a b = Ok (a / b).
Proof.
  intro H. unfold py_div.
  destruct (Qeq_bool b 0) eqn:E; [| reflexivity].
  apply Qeq_bool_iff in E. contradiction.
Qed.

Lemma duration_nonzero (n : nat) :
  n <> 0%nat -> ~ inject_Z (Z.of_nat n) / inject_Z 100 == 0.
Proof.
  intros H E. unfold Qeq, Qdiv, Qmult, Qinv, inject_Z in E. simpl in E. lia.
Qed.

Lemma series_getitem_raises (s : Series) (keys : list nat) (e : exn) :
  series_getitem s keys = Raise e -> e = KeyError.
Proof.
  revert e. induction keys as [| k ks IH]; simpl; intros e G; [discriminate |].
  destruct (series_loc s k); [| congruence].
  destruct (series_getitem s ks); simpl in G; [discriminate |].
  injection G as <-. apply (IH e0 eq_refl).
Qed.

(** A non-empty segment ends with features or with the [KeyError] of the
    peak lookup. *)
Lemma analyze_gsr_outcome (find_peaks : list Q -> Q -> Z -> list nat)
  (gsr_data : Series) :
  gsr_data <> [] ->
  analyze_gsr find_peaks gsr_data 100 = Raise KeyError \/
  exists scr_amplitude scr_frequency,
    analyze_gsr find_peaks gsr_data 100 = Ok (scr_amplitude, scr_frequency).
Proof.
  intro nonempty.
  assert (len : List.length gsr_data <> 0%nat).
  { destruct gsr_data; [contradiction | discriminate]. }
  unfold analyze_gsr, analyze_gsr_on. cbn [series_getitem_on].
  destruct (Nat.eqb_spec (List.length gsr_data) 0) as [E | _]; [contradiction |].
  destruct (series_getitem gsr_data _) as [at_peaks | e] eqn:G; cbn [bind].
  - right. rewrite py_div_nonzero by discriminate. cbn [bind].
    rewrite (py_div_nonzero _ _ (duration_nonzero _ len)). cbn [bind].
    eexists. eexists. reflexivity.
  - left. apply series_getitem_raises in G. subst e. reflexivity.
Qed.

(** C5: on an empty segment [analyze_gsr] returns (0, 0); on every
    non-empty one, a single sample included, the divisor of the frequency,
    [len(gsr_data) / 100], is a non-zero number, so neither division
    raises: the call ends with features, or with the [KeyError] of the
    peak lookup, never with [ZeroDivisionError]. *)
Theorem analyze_gsr_no_zero_division (find_peaks : list Q -> Q -> Z -> list nat) :
  analyze_gsr find_peaks [] 100 = Ok (0, 0) /\
  forall gsr_data : Series,
    gsr_data <> [] ->
    (exists duration,
        py_div (inject_Z (Z.of_nat (List.length gsr_data))) (inject_Z 100) = Ok duration /\
        ~ duration == 0 /\
        forall peaks : Q, exists frequency, py_div peaks duration = Ok frequency) /\
    analyze_gsr find_peaks gsr_data 100 <> Raise ZeroDivisionError /\
    (analyze_gsr find_peaks gsr_data 100 = Raise KeyError \/
     exists scr_amplitude scr_frequency,
       analyze_gsr find_peaks gsr_data 100 = Ok (scr_amplitude, scr_frequency)).
Proof.
  split; [reflexivity |].
  intros gsr_data nonempty.
  assert (len : List.length gsr_data <> 0%nat).
  { destruct gsr_data; [contradiction | discriminate]. }
  pose proof (duration_nonzero _ len) as nz.
  pose proof (analyze_gsr_outcome find_peaks gsr_data nonempty) as outcome.
  split.
  - eexists. split; [apply py_div_nonzero; discriminate |]. split; [exact nz |].
    intro peaks. eexists. apply py_div_nonzero. exact nz.
  - split; [| exact outcome].
    destruct outcome as [K | (a & f & O)]; rewrite ?K, ?O; discriminate.
Qed.

Lemma analyze_gsr_no_zero_division_witness :
  analyze_gsr find_peaks_ref [(7%nat, 0.2)] 100 <> Raise ZeroDivisionError.
Proof.
  apply (proj2 (analyze_gsr_no_zero_division find_peaks_ref) [(7%nat, 0.2)]).
  discriminate.
Defined.

(** ** The result monad *)

Lemma bind_ok {A B : Type} (c : result A) (k : A -> result B) (b : B) :
  bind c k = Ok b -> exists a, c = Ok a /\ k a = Ok b.
Proof.
  destruct c as [a | e]; simpl; intro H; [| discriminate].
  exists a. split; [reflexivity | exact H].
Qed.

Lemma raises_only_bind {A B : Type} (E : exn -> Prop) (c : result A) (k : A -> result B) :
  raises_only E c -> (forall a, c = Ok a -> raises_only E (k a)) ->
  raises_only E (bind c k).
Proof.
  intros Hc Hk e. destruct c as [a | e']; simpl.
  - apply (Hk a eq_refl).
  - intro H. injection H as <-. apply Hc. reflexivity.
Qed.

Lemma raises_only_ok {A : Type} (E : exn -> Prop) (a : A) : raises_only E (Ok a).
Proof. intros e H. discriminate H. Qed.

Lemma raises_only_raise {A : Type} (E : exn -> Prop) (e : exn) :
  E e -> raises_only E (@Raise A e).
Proof. intros H e' R. injection R as <-. exact H. Qed.

Create HintDb raises.
#[local] Hint Resolve raises_only_ok : raises.
#[local] Hint Extern 1 (raises_only not_decode_error (Raise _)) =>
  (apply raises_only_raise; discriminate) : raises.

(** ** Preparing the table *)

Lemma convert_time_to_seconds_ok (v : pyval) :
  exists o, convert_time_to_seconds v = Ok o.
Proof.
  destruct (convert_time_to_seconds_total v) as [N | (n & _ & S)];
    eexists; eassumption.
Qed.

Lemma prepare_from_ok (index : Index) (df : DataFrame) (rs : list sample) (i : nat) :
  exists kept, prepare_from index df i rs = Ok kept.
Proof.
  revert i. induction rs as [| r rest IH]; intro i; simpl.
  - exists []. reflexivity.
  - destruct (convert_time_to_seconds_ok
                (if has_time df then time r else index_label index i)) as [o ->].
    destruct (IH (S i)) as [kept ->]. simpl.
    destruct o; eexists; reflexivity.
Qed.

Lemma prepare_ok (index : Index) (df : DataFrame) :
  exists kept, prepare index df = Ok kept.
Proof. apply prepare_from_ok. Qed.

(** Without a [time] column and with an index none of whose labels is a
    time, no row is kept. *)
Lemma prepare_from_without_time (index : Index) (df : DataFrame)
  (rs : list sample) (i : nat) :
  has_time df = false ->
  (forall j, convert_time_to_seconds (index_label index j) = Ok None) ->
  prepare_from index df i rs = Ok [].
Proof.
  intros H none. revert i. induction rs as [| r rest IH]; intro i; simpl;
    [reflexivity |].
  rewrite H, none, IH. reflexivity.
Qed.


Lemma astype_float_ok {A : Type} (text_rows : list nat) (selected : list timed_sample)
  (segment out : A) :
  astype_float text_rows selected segment = Ok out -> out = segment.
Proof.
  unfold astype_float. destruct (existsb _ selected); congruence.
Qed.

Lemma astype_float_raises {A : Type} (text_rows : list nat)
  (selected : list timed_sample) (segment : A) :
  raises_only not_decode_error (astype_float text_rows selected segment).
Proof. unfold astype_float. destruct (existsb _ selected); auto with raises. Qed.

(** ** Window slicing *)

Lemma select_nil {A : Type} (mask : list bool) : select mask (@nil A) = [].
Proof. destruct mask as [| [] ?]; reflexivity. Qed.

Lemma window_empty_table (start_time end_time : json) (selected : list timed_sample) :
  window [] start_time end_time = Ok selected -> selected = [].
Proof.
  unfold window. intro H.
  apply bind_ok in H. destruct H as (ge & _ & H).
  apply bind_ok in H. destruct H as (le & _ & H).
  injection H as <-. apply select_nil.
Qed.


Lemma series_cmp_raises (op : Q -> Q -> bool) (times : list Z) (bound : json) :
  raises_only not_decode_error (series_cmp op times bound).
Proof.
  unfold series_cmp.
  destruct bound; simpl;
    repeat match goal with
           | |- context [match ?x with _ => _ end] => destruct x
           | |- context [if ?x then _ else _] => destruct x
           end; auto with raises.
Qed.

Lemma window_raises (df : list timed_sample) (start_time end_time : json) :
  raises_only not_decode_error (window df start_time end_time).
Proof.
  unfold window.
  apply raises_only_bind; [apply series_cmp_raises | intros ge _].
  apply raises_only_bind; [apply series_cmp_raises | intros le _].
  auto with raises.
Qed.

(** ** JSON accessors *)

Lemma getitem_key_raises (obj : json) (key : string) :
  raises_only not_decode_error (getitem_key obj key).
Proof.
  unfold getitem_key. destruct obj; auto with raises.
  destruct (dict_get members key); auto with raises.
Qed.

Lemma getitem_index_raises (obj : json) (i : nat) :
  raises_only not_decode_error (getitem_index obj i).
Proof.
  unfold getitem_index. destruct obj; auto with raises.
  - destruct (nth_error (chars s) i); auto with raises.
  - destruct (nth_error items i); auto with raises.
Qed.

Lemma py_iter_raises (obj : json) : raises_only not_decode_error (py_iter obj).
Proof. unfold py_iter. destruct obj; auto with raises. Qed.

(** ** The loop *)

Lemma py_div_raises (a b : Q) : raises_only not_decode_error (py_div a b).
Proof. unfold py_div. destruct (Qeq_bool b 0); auto with raises. Qed.

Lemma series_iloc_raises (s : Series) (keys : list nat) (e : exn) :
  series_iloc s keys = Raise e -> e = IndexError.
Proof.
  revert e. induction keys as [| k ks IH]; simpl; intros e G; [discriminate |].
  destruct (nth_error (values s) k); [| congruence].
  destruct (series_iloc s ks); simpl in G; [discriminate |].
  injection G as <-. apply (IH e0 eq_refl).
Qed.

Lemma series_loc_all_raises (index : Index) (s : Series) (keys : list nat) (e : exn) :
  series_loc_all index s keys = Raise e -> e = KeyError.
Proof.
  revert e. induction keys as [| k ks IH]; simpl; intros e G; [discriminate |].
  destruct (filter _ s); [congruence |].
  destruct (series_loc_all index s ks); simpl in G; [discriminate |].
  injection G as <-. apply (IH e0 eq_refl).
Qed.

Lemma series_getitem_on_raises (index : Index) (s : Series) (keys : list nat) :
  raises_only not_decode_error (series_getitem_on index s keys).
Proof.
  intros e G. unfold series_getitem_on in G.
  destruct index as [| cells].
  - apply series_getitem_raises in G. subst e. discriminate.
  - destruct (existsb is_text cells).
    + apply series_iloc_raises in G. subst e. discriminate.
    + apply series_loc_all_raises in G. subst e. discriminate.
Qed.

Section PipelineFacts.

Variable np_sqrt : Q -> Q.
Variable find_peaks : list Q -> Q -> Z -> list nat.

Lemma analyze_gsr_on_raises (index : Index) (gsr_data : Series) (sampling_rate : Z) :
  raises_only not_decode_error (analyze_gsr_on find_peaks index gsr_data sampling_rate).
Proof.
  unfold analyze_gsr_on.
  destruct (List.length gsr_data =? 0)%nat; auto with raises.
  apply raises_only_bind; [apply series_getitem_on_raises | intros at_peaks _].
  apply raises_only_bind; [apply py_div_raises | intros duration _].
  apply raises_only_bind; [apply py_div_raises | intros frequency _].
  auto with raises.
Qed.

Lemma window_gsr_emotion_on_raises (index : Index) (gsr_segment : list (nat * cell))
  (sampling_rate : Z) :
  raises_only not_decode_error
    (window_gsr_emotion_on find_peaks index gsr_segment sampling_rate).
Proof.
  unfold window_gsr_emotion_on.
  destruct (negb _); auto with raises.
  apply raises_only_bind; [apply analyze_gsr_on_raises | intros [a f] _].
  auto with raises.
Qed.

Lemma process_chunk_on_raises (how : Reading) (df : list timed_sample)
  (sampling_rate : Z) (chunk : json) :
  raises_only not_decode_error
    (process_chunk_on np_sqrt find_peaks how df sampling_rate chunk).
Proof.
  unfold process_chunk_on.
  repeat (apply raises_only_bind;
          [ first [ apply getitem_key_raises | apply getitem_index_raises
                  | apply window_raises | apply astype_float_raises
                  | apply window_gsr_emotion_on_raises ]
          | intros ? _ ]).
  auto with raises.
Qed.

Lemma process_chunks_on_raises (how : Reading) (df : list timed_sample)
  (sampling_rate : Z) (chunks : list json) (results : list ResultRecord) :
  raises_only not_decode_error
    (process_chunks_on np_sqrt find_peaks how df sampling_rate chunks results).
Proof.
  revert results. induction chunks as [| chunk rest IH]; intro results; simpl.
  - auto with raises.
  - apply raises_only_bind; [apply process_chunk_on_raises | intros r _; apply IH].
Qed.

(** The loop is a left-to-right map of its body. *)
Lemma process_chunks_on_ok (how : Reading) (df : list timed_sample) (sampling_rate : Z)
  (chunks : list json) (results out : list ResultRecord) :
  process_chunks_on np_sqrt find_peaks how df sampling_rate chunks results = Ok out ->
  exists new,
    out = (results ++ new)%list /\
    Forall2 (fun chunk r =>
               process_chunk_on np_sqrt find_peaks how df sampling_rate chunk = Ok r)
            chunks new.
Proof.
  revert results. induction chunks as [| chunk rest IH]; intro results; simpl.
  - intro H. injection H as <-. exists []. rewrite app_nil_r. split; constructor.
  - intro H. apply bind_ok in H. destruct H as (r & Hr & H).
    destruct (IH _ H) as (new & -> & F).
    exists (r :: new). rewrite <- app_assoc. split; [reflexivity |].
    constructor; assumption.
Qed.

Lemma process_chunks_on_all_ok (how : Reading) (df : list timed_sample)
  (sampling_rate : Z) (chunks : list json) (results new : list ResultRecord) :
  Forall2 (fun chunk r =>
             process_chunk_on np_sqrt find_peaks how df sampling_rate chunk = Ok r)
          chunks new ->
  process_chunks_on np_sqrt find_peaks how df sampling_rate chunks results
  = Ok (results ++ new)%list.
Proof.
  intro F. revert results. induction F as [| chunk r rest new' Hr F IH];
    intro results; simpl.
  - rewrite app_nil_r. reflexivity.
  - rewrite Hr. simpl. rewrite IH, <- app_assoc. reflexivity.
Qed.

(** What a record produced by the loop body holds. *)
Lemma process_chunk_on_ok (how : Reading) (df : list timed_sample) (sampling_rate : Z)
  (chunk : json) (r : ResultRecord) :
  process_chunk_on np_sqrt find_peaks how df sampling_rate chunk = Ok r ->
  exists selected gsr_emotion,
    record_window r = chunk_window chunk /\
    window df (fst (timestamp r)) (snd (timestamp r)) = Ok selected /\
    window_gsr_emotion_on find_peaks (index how)
      (map (fun s => (label s, gsr s)) selected) sampling_rate
    = Ok gsr_emotion /\
    emotion r
    = combine_emotions (window_ppg_emotion np_sqrt (map ppg selected)) gsr_emotion.
Proof.
  unfold process_chunk_on, record_window, chunk_window, chunk_bound. intro H.
  apply bind_ok in H. destruct H as (ts0 & T0 & H).
  apply bind_ok in H. destruct H as (start_time & S0 & H).
  apply bind_ok in H. destruct H as (ts1 & T1 & H).
  apply bind_ok in H. destruct H as (end_time & S1 & H).
  apply bind_ok in H. destruct H as (txt & X & H).
  apply bind_ok in H. destruct H as (ppg_rows & W & H).
  apply bind_ok in H. destruct H as (ppg_segment & P & H).
  apply bind_ok in H. destruct H as (gsr_rows & W' & H).
  apply bind_ok in H. destruct H as (gsr_segment & G' & H).
  apply bind_ok in H. destruct H as (gsr_emotion & G & H).
  injection H as <-. simpl.
  rewrite W in W'. injection W' as <-.
  apply astype_float_ok in P. apply astype_float_ok in G'. subst ppg_segment gsr_segment.
  exists ppg_rows, gsr_emotion.
  rewrite T0. simpl. rewrite S0. rewrite T0 in T1. injection T1 as <-.
  rewrite S1, X. simpl. auto.
Qed.

Lemma process_chunk_ok (df : list timed_sample) (sampling_rate : Z)
  (chunk : json) (r : ResultRecord) :
  process_chunk np_sqrt find_peaks df sampling_rate chunk = Ok r ->
  exists selected gsr_emotion,
    record_window r = chunk_window chunk /\
    window df (fst (timestamp r)) (snd (timestamp r)) = Ok selected /\
    window_gsr_emotion find_peaks (map (fun s => (label s, gsr s)) selected) sampling_rate
    = Ok gsr_emotion /\
    emotion r
    = combine_emotions (window_ppg_emotion np_sqrt (map ppg selected)) gsr_emotion.
Proof. apply process_chunk_on_ok. Qed.

End PipelineFacts.

(** ** PPG path of a window *)

Lemma np_diff_present (l : list Q) :
  np_diff cell_sub (map Some l) = map Some (np_diff Qminus l).
Proof.
  induction l as [| x [| y rest] IH]; try reflexivity.
  change (Some (y - x) :: np_diff cell_sub (map Some (y :: rest))
          = Some (y - x) :: map Some (np_diff Qminus (y :: rest))).
  rewrite IH. reflexivity.
Qed.

Lemma present_all (l : list Q) : present (map Some l) = l.
Proof.
  unfold present. induction l as [| x rest IH]; simpl; [reflexivity |].
  rewrite IH. reflexivity.
Qed.

Lemma ppg_rr_intervals_present (l : list Q) :
  ppg_rr_intervals (map Some l) = spec_rr_intervals l.
Proof.
  unfold ppg_rr_intervals, spec_rr_intervals.
  rewrite np_diff_present, map_map. reflexivity.
Qed.

Section WindowClaims.

Variable np_sqrt : Q -> Q.
Variable find_peaks : list Q -> Q -> Z -> list nat.

Lemma window_ppg_emotion_features (ppg_segment : list cell) :
  window_ppg_emotion np_sqrt ppg_segment
  = match window_ppg_features np_sqrt ppg_segment with
    | Some (ppg_sdnn, ppg_rmssd) => classify_ppg_emotion ppg_sdnn ppg_rmssd
    | None => "Neutral/Calm"
    end.
Proof.
  unfold window_ppg_emotion, window_ppg_features.
  destruct (negb _); [| reflexivity].
  destruct (_ <? _)%nat; reflexivity.
Qed.

(** X2: on a segment with no missing value the loop body and the analyser
    of the specification give the same label. *)
Lemma window_ppg_emotion_complete_segment (l : list Q) :
  window_ppg_emotion np_sqrt (map Some l) = spec_ppg_emotion np_sqrt (map Some l).
Proof.
  unfold window_ppg_emotion, spec_ppg_emotion, spec_ppg_analyzer.
  rewrite present_all, ppg_rr_intervals_present.
  destruct l as [| x rest]; [reflexivity |].
  cbn [map forallb isnull andb negb].
  destruct (Nat.ltb_spec 1 (List.length (spec_rr_intervals (x :: rest))));
    destruct (Nat.ltb_spec (List.length (spec_rr_intervals (x :: rest))) 2);
    try lia; reflexivity.
Qed.

(** C3, evaluated where it fails: a window whose PPG cells are
    1, -, 2, -, 3, -, 4 (every other one missing).  The loop body takes the
    differences of the segment as it is, finds no rising edge, and labels
    the window "Neutral/Calm"; on the present values 1, 2, 3, 4 the analyser
    of the specification finds the intervals 1, 1, defines both features as
    roots of zero, and the label is "Sad". *)
Theorem ppg_missing_values_not_excluded :
  forallb isnull gappy_ppg_segment = false /\
  ppg_rr_intervals gappy_ppg_segment = [] /\
  window_ppg_emotion np_sqrt gappy_ppg_segment = "Neutral/Calm" /\
  analyze_sensors np_sqrt find_peaks gappy_ppg_file (chunks_payload [chunk_json 0 0 "a"])
  = Response [gappy_ppg_record] /\
  spec_rr_intervals (present gappy_ppg_segment) = [1; 1]%Z /\
  (exists v w, v == 0 /\ w == 0 /\
     spec_ppg_analyzer np_sqrt (present gappy_ppg_segment) = Some (np_sqrt v, np_sqrt w)) /\
  spec_ppg_emotion sqrt_floor gappy_ppg_segment = "Sad".
Proof.
  split; [reflexivity |].
  split; [reflexivity |].
  split; [reflexivity |].
  split; [reflexivity |].
  split; [reflexivity |].
  split; [| reflexivity].
  eexists. eexists.
  split; [| split; [| unfold spec_ppg_analyzer, np_std; cbn [present gappy_ppg_segment]; reflexivity]];
    reflexivity.
Qed.

(** C8: when the PPG segment of a window yields fewer than two rising-edge
    intervals, no PPG feature is computed and the window's PPG label is the
    default "Neutral/Calm": the record's emotion is that label fused with
    the window's GSR label. *)
Theorem insufficient_intervals_default_label
  (df : list timed_sample) (sampling_rate : Z) (chunk : json) (r : ResultRecord)
  (selected : list timed_sample) :
  process_chunk np_sqrt find_peaks df sampling_rate chunk = Ok r ->
  window df (fst (timestamp r)) (snd (timestamp r)) = Ok selected ->
  (List.length (ppg_rr_intervals (map ppg selected)) < 2)%nat ->
  window_ppg_features np_sqrt (map ppg selected) = None /\
  window_ppg_emotion np_sqrt (map ppg selected) = "Neutral/Calm" /\
  exists gsr_emotion,
    window_gsr_emotion find_peaks (map (fun s => (label s, gsr s)) selected) sampling_rate
    = Ok gsr_emotion /\
    emotion r = combine_emotions "Neutral/Calm" gsr_emotion.
Proof.
  intros P W few.
  assert (undefined : window_ppg_features np_sqrt (map ppg selected) = None).
  { unfold window_ppg_features.
    destruct (negb _); [| reflexivity].
    destruct (Nat.ltb_spec 1 (List.length (ppg_rr_intervals (map ppg selected))));
      [lia | reflexivity]. }
  assert (default : window_ppg_emotion np_sqrt (map ppg selected) = "Neutral/Calm").
  { rewrite window_ppg_emotion_features, undefined. reflexivity. }
  split; [exact undefined |]. split; [exact default |].
  destruct (process_chunk_ok _ _ _ _ _ _ P) as (selected' & g & _ & W' & G & E).
  rewrite W in W'. injection W' as <-.
  exists g. split; [exact G |]. rewrite E, default. reflexivity.
Qed.

End WindowClaims.

Lemma insufficient_intervals_default_label_witness :
  window_ppg_features sqrt_floor (map ppg gappy_ppg_rows) = None /\
  window_ppg_emotion sqrt_floor (map ppg gappy_ppg_rows) = "Neutral/Calm" /\
  exists gsr_emotion,
    window_gsr_emotion find_peaks_ref
      (map (fun s => (label s, gsr s)) gappy_ppg_rows) 100
    = Ok gsr_emotion /\
    emotion gappy_ppg_record = combine_emotions "Neutral/Calm" gsr_emotion.
Proof.
  apply (insufficient_intervals_default_label sqrt_floor find_peaks_ref
           gappy_ppg_rows 100 (chunk_json 0 0 "a") gappy_ppg_record gappy_ppg_rows).
  - reflexivity.
  - reflexivity.
  - simpl. lia.
Defined.

(** ** The request handler *)

Lemma well_formed_chunk_parts (chunk : json) :
  well_formed_chunk chunk = true ->
  exists a b more s,
    getitem_key chunk "timestamp" = Ok (JArr (JNum a :: JNum b :: more)) /\
    getitem_key chunk "text" = Ok (JStr s).
Proof.
  unfold well_formed_chunk. intro H.
  destruct (getitem_key chunk "timestamp")
    as [[| | | | [| [| | a | | |] [| [| | b | | |] more]] |] |];
    try discriminate H.
  destruct (getitem_key chunk "text") as [[| | | s | |] |]; try discriminate H.
  exists a, b, more, s. split; reflexivity.
Qed.

Section HandlerClaims.

Variable np_sqrt : Q -> Q.
Variable find_peaks : list Q -> Q -> Z -> list nat.

Lemma handler_response (file : csv_file) (chunks_json : json_text)
  (results : list ResultRecord) :
  analyze_sensors np_sqrt find_peaks file chunks_json = Response results <->
  analyze_sensors_body np_sqrt find_peaks file chunks_json = Ok results.
Proof.
  unfold analyze_sensors.
  destruct (analyze_sensors_body np_sqrt find_peaks file chunks_json) as [rs | []];
    split; intro H; try discriminate H; injection H as <-; reflexivity.
Qed.

Lemma handler_body_raises (file : csv_file) (value : json) :
  raises_only not_decode_error (analyze_sensors_body np_sqrt find_peaks file (Json value)).
Proof.
  unfold analyze_sensors_body.
  apply raises_only_bind.
  { destruct file; simpl; auto with raises. }
  intros [how table] _. apply raises_only_bind.
  { destruct (prepare_ok (index how) table) as [kept ->]. auto with raises. }
  intros kept _. simpl json_loads. cbn [bind].
  apply raises_only_bind; [apply getitem_key_raises | intros chunks _].
  apply raises_only_bind; [apply py_iter_raises | intros items _].
  apply process_chunks_on_raises.
Qed.

(** Whenever the handler answers with records, there is one record per
    window, in the order of the windows, holding the window's timestamp
    pair and text. *)
Lemma results_mirror_windows (how : Reading) (df : list timed_sample)
  (sampling_rate : Z) (chunks : list json) (results : list ResultRecord) :
  process_chunks_on np_sqrt find_peaks how df sampling_rate chunks [] = Ok results ->
  map record_window results = map chunk_window chunks.
Proof.
  intro H. apply process_chunks_on_ok in H. destruct H as (new & -> & F).
  simpl. induction F as [| chunk r rest new' Hr F IH]; [reflexivity |].
  simpl. rewrite IH.
  destruct (process_chunk_on_ok _ _ _ _ _ _ _ Hr) as (_ & _ & -> & _). reflexivity.
Qed.

(** C7, evaluated where it fails: rows 0 and 1 lie in second 0, rows 2, 3, 4
    in second 1 with GSR values 0, 1, 0.  For the one window [1, 1] the GSR
    segment carries the labels 2, 3, 4; the detector reports the peak at
    position 1; the lookup [gsr_data[scr_peaks]] takes 1 as a label, finds
    none, and the request ends with status 500 instead of one record. *)
Theorem late_gsr_peak_gives_no_record :
  find_peaks [0; 1; 0] 0.1 100%Z = [1%nat] ->
  analyze_sensors np_sqrt find_peaks late_peak_file (chunks_payload [chunk_json 1 1 "a"])
  = HTTPException 500 "Error processing sensor data.".
Proof.
  intro peak.
  vm_compute. vm_compute in peak. rewrite peak. reflexivity.
Qed.


(** C10 (as the code has it): when the CSV file has no [time] column and
    pandas numbers its rows, the row numbers stand in for the times; the
    parser gives [None] for every value that is not a string, so no row
    survives; whatever the request's windows, every record of the response
    is labelled "Neutral/Calm", and for windows of the expected shape the
    response is exactly one such record per window. *)
Theorem missing_time_column_all_neutral (how : Reading) (df : DataFrame) :
  has_time df = false ->
  index how = RangeIndex ->
  (forall i, index_label (index how) i = VInt (Z.of_nat i)) /\
  (forall z, convert_time_to_seconds (VInt z) = Ok None) /\
  (forall x, convert_time_to_seconds (VFloat x) = Ok None) /\
  prepare (index how) df = Ok [] /\
  (forall start_time end_time selected,
      window [] start_time end_time = Ok selected -> selected = []) /\
  (forall chunks_json results,
      analyze_sensors np_sqrt find_peaks (CsvWith how df) chunks_json = Response results ->
      Forall (fun r => emotion r = "Neutral/Calm") results) /\
  (forall chunks,
      forallb well_formed_chunk chunks = true ->
      analyze_sensors np_sqrt find_peaks (CsvWith how df) (chunks_payload chunks)
      = Response (map neutral_record chunks)).
Proof.
  intros no_time numbered.
  assert (empty : prepare (index how) df = Ok []).
  { apply prepare_from_without_time; [exact no_time |].
    intro j. rewrite numbered. reflexivity. }
  split; [intro i; rewrite numbered; reflexivity |].
  split; [reflexivity |]. split; [reflexivity |]. split; [exact empty |].
  split; [exact window_empty_table |].
  split.
  - intros chunks_json results H.
    apply handler_response in H. unfold analyze_sensors_body in H.
    cbn [read_csv bind] in H. rewrite empty in H. cbn [bind] in H.
    apply bind_ok in H. destruct H as (chunks_data & _ & H).
    apply bind_ok in H. destruct H as (chunks & _ & H).
    apply bind_ok in H. destruct H as (items & _ & H).
    apply process_chunks_on_ok in H. destruct H as (new & -> & F). simpl.
    induction F as [| chunk r rest new' Hr F IH]; constructor; [| exact IH].
    destruct (process_chunk_on_ok _ _ _ _ _ _ _ Hr) as (selected & g & _ & W & G & ->).
    apply window_empty_table in W. subst selected.
    simpl in G. injection G as <-. reflexivity.
  - intros chunks wf.
    apply handler_response. unfold analyze_sensors_body, chunks_payload.
    cbn [read_csv bind]. rewrite empty.
    cbn [bind json_loads getitem_key dict_get String.eqb Ascii.eqb Bool.eqb py_iter].
    change (map neutral_record chunks) with ([] ++ map neutral_record chunks)%list.
    apply process_chunks_on_all_ok.
    induction chunks as [| chunk rest IH]; simpl; constructor.
    + simpl in wf. apply andb_true_iff in wf. destruct wf as [wf1 _].
      destruct (well_formed_chunk_parts _ wf1) as (a & b & more & s & T & X).
      unfold process_chunk_on, neutral_record, chunk_window, chunk_bound.
      rewrite T, X. reflexivity.
    + apply IH. simpl in wf. apply andb_true_iff in wf. tauto.
Qed.

(** X1: a response with records has one record per window of the request,
    in the windows' order, each with its window's timestamp pair and text. *)
Lemma response_mirrors_windows (file : csv_file) (chunks : list json)
  (results : list ResultRecord) :
  analyze_sensors np_sqrt find_peaks file (chunks_payload chunks) = Response results ->
  map record_window results = map chunk_window chunks.
Proof.
  intro H. apply handler_response in H. unfold analyze_sensors_body in H.
  apply bind_ok in H. destruct H as ((how & table) & _ & H).
  apply bind_ok in H. destruct H as (kept & _ & H).
  simpl in H. exact (results_mirror_windows _ _ _ _ _ H).
Qed.

End HandlerClaims.

Lemma late_gsr_peak_gives_no_record_witness :
  analyze_sensors sqrt_floor find_peaks_ref late_peak_file
    (chunks_payload [chunk_json 1 1 "a"])
  = HTTPException 500 "Error processing sensor data.".
Proof.
  apply (late_gsr_peak_gives_no_record sqrt_floor find_peaks_ref).
  reflexivity.
Defined.


Lemma missing_time_column_all_neutral_witness :
  analyze_sensors sqrt_floor find_peaks_ref (Csv untimed_file)
    (chunks_payload [chunk_json 0 1 "a"; chunk_json 0 5 "b"])
  = Response (map neutral_record [chunk_json 0 1 "a"; chunk_json 0 5 "b"]).
Proof.
  apply (missing_time_column_all_neutral sqrt_floor find_peaks_ref plain untimed_file).
  - reflexivity.
  - reflexivity.
  - reflexivity.
Defined.

(** C10 as stated does not hold: the file with the header [ppg_signal] and
    the four rows [0:00.000;1] to [0:00.000;4] has no [time] column; its
    rows have one field more than its header, so the first field is the
    index and stands in for the times; the four rows survive, and the
    window [0, 0] is labelled "Sad". *)
Lemma missing_time_column_first_field_times :
  has_time first_field_table = false /\
  (exists kept,
      prepare (index first_field_reading) first_field_table = Ok kept /\
      List.length kept = 4%nat) /\
  analyze_sensors sqrt_floor find_peaks_ref
    (CsvWith first_field_reading first_field_table)
    (chunks_payload [chunk_json 0 0 "a"])
  = Response [ {| timestamp := (JNum 0, JNum 0); text := JStr "a"; emotion := "Sad" |} ] /\
  ~ (forall results,
        analyze_sensors sqrt_floor find_peaks_ref
          (CsvWith first_field_reading first_field_table)
          (chunks_payload [chunk_json 0 0 "a"]) = Response results ->
        Forall (fun r => emotion r = "Neutral/Calm") results).
Proof.
  split; [reflexivity |].
  split; [eexists; split; reflexivity |].
  split; [reflexivity |].
  intro all. specialize (all _ eq_refl).
  inversion all as [| r rest E _]. discriminate E.
Qed.

Lemma response_mirrors_windows_witness :
  map record_window
    [ {| timestamp := (JNum 0, JNum 0); text := JStr "a"; emotion := "Neutral/Calm" |};
      {| timestamp := (JNum 0, JNum 1); text := JStr "b"; emotion := "Happy/Angry" |} ]
  = map chunk_window [chunk_json 0 0 "a"; chunk_json 0 1 "b"].
Proof.
  apply (response_mirrors_windows sqrt_floor find_peaks_ref late_peak_file).
  reflexivity.
Defined.

(** * Further properties of the source *)

(** ** GSR classifier *)

(** X3: the GSR classifier is an ordered decision list with the strict and
    inclusive bounds of lines 27-34: each label is returned exactly when
    its rule holds and no earlier rule does. *)
Theorem classify_gsr_emotion_decision_list (scr_amplitude scr_frequency : Q) :
  let aroused := scr_amplitude > 0.5 /\ scr_frequency > 0.05 in
  let sad := scr_amplitude < 0.3 /\ scr_frequency < 0.02 in
  let neutral := (0.3 <= scr_amplitude /\ scr_amplitude <= 0.5)
                 /\ (0.02 <= scr_frequency /\ scr_frequency <= 0.05) in
  (classify_gsr_emotion scr_amplitude scr_frequency = "Happy/Angry" <-> aroused) /\
  (classify_gsr_emotion scr_amplitude scr_frequency = "Sad" <-> ~ aroused /\ sad) /\
  (classify_gsr_emotion scr_amplitude scr_frequency = "Neutral" <->
     ~ aroused /\ ~ sad /\ neutral) /\
  (classify_gsr_emotion scr_amplitude scr_frequency = "Neutral/Calm" <->
     ~ aroused /\ ~ sad /\ ~ neutral).
Proof.
  cbv zeta. unfold classify_gsr_emotion.
  by_comparisons;
    repeat split; intros; try discriminate; try reflexivity;
    try lra; try tauto.
Qed.

(** ** Labels *)

Lemma classify_ppg_emotion_labels (sdnn rmssd : Q) :
  In (classify_ppg_emotion sdnn rmssd) ppg_labels.
Proof.
  unfold classify_ppg_emotion, ppg_labels.
  repeat match goal with
         | |- context [if ?b then _ else _] => destruct b
         end; simpl; tauto.
Qed.

Lemma classify_gsr_emotion_labels (scr_amplitude scr_frequency : Q) :
  In (classify_gsr_emotion scr_amplitude scr_frequency) gsr_labels.
Proof.
  unfold classify_gsr_emotion, gsr_labels.
  repeat match goal with
         | |- context [if ?b then _ else _] => destruct b
         end; simpl; tauto.
Qed.

Lemma window_ppg_emotion_labels (np_sqrt : Q -> Q) (ppg_segment : list cell) :
  In (window_ppg_emotion np_sqrt ppg_segment) ppg_labels.
Proof.
  unfold window_ppg_emotion.
  destruct (negb _); [| simpl; tauto].
  destruct (_ <? _)%nat; [apply classify_ppg_emotion_labels | simpl; tauto].
Qed.

Lemma window_gsr_emotion_labels (find_peaks : list Q -> Q -> Z -> list nat)
  (index : Index) (gsr_segment : list (nat * cell)) (sampling_rate : Z)
  (gsr_emotion : string) :
  window_gsr_emotion_on find_peaks index gsr_segment sampling_rate = Ok gsr_emotion ->
  In gsr_emotion gsr_labels.
Proof.
  unfold window_gsr_emotion_on.
  destruct (negb _).
  - intro H. apply bind_ok in H. destruct H as ([a f] & _ & H).
    injection H as <-. apply classify_gsr_emotion_labels.
  - intro H. injection H as <-. simpl. tauto.
Qed.

Lemma ppg_label_not_happy_angry (l : string) :
  In l ppg_labels -> l <> "Happy/Angry".
Proof.
  unfold ppg_labels. simpl.
  intros [<- | [<- | [<- | [<- | [<- | []]]]]]; discriminate.
Qed.

Lemma combine_emotions_cases (ppg_emotion gsr_emotion : string) :
  (gsr_emotion = "Happy/Angry" /\
   combine_emotions ppg_emotion gsr_emotion = "Happy/Angry") \/
  (gsr_emotion <> "Happy/Angry" /\
   combine_emotions ppg_emotion gsr_emotion = ppg_emotion).
Proof.
  unfold combine_emotions.
  destruct (String.eqb_spec gsr_emotion "Happy/Angry") as [-> | ne];
    [left | right]; split; auto.
Qed.

Lemma ppg_labels_are_emotion_labels (l : string) :
  In l ppg_labels -> In l emotion_labels.
Proof. unfold ppg_labels, emotion_labels. simpl. tauto. Qed.

Section LabelClaims.

Variable np_sqrt : Q -> Q.
Variable find_peaks : list Q -> Q -> Z -> list nat.

Lemma process_chunk_emotion_labels (how : Reading) (df : list timed_sample)
  (sampling_rate : Z) (chunk : json) (r : ResultRecord) :
  process_chunk_on np_sqrt find_peaks how df sampling_rate chunk = Ok r ->
  In (emotion r) emotion_labels.
Proof.
  intro H.
  destruct (process_chunk_on_ok _ _ _ _ _ _ _ H) as (selected & g & _ & _ & _ & ->).
  destruct (combine_emotions_cases (window_ppg_emotion np_sqrt (map ppg selected)) g)
    as [[_ ->] | [_ ->]].
  - unfold emotion_labels. simpl. tauto.
  - apply ppg_labels_are_emotion_labels, window_ppg_emotion_labels.
Qed.

(** X4: whatever the file and the windows, every record of a response
    carries one of the six labels Happy, Sad, Angry, Neutral, Neutral/Calm,
    Happy/Angry. *)
Theorem response_emotions_in_label_set (file : csv_file) (chunks_json : json_text)
  (results : list ResultRecord) :
  analyze_sensors np_sqrt find_peaks file chunks_json = Response results ->
  Forall (fun r => In (emotion r) emotion_labels) results.
Proof.
  intro H. apply handler_response in H. unfold analyze_sensors_body in H.
  apply bind_ok in H. destruct H as ((how & table) & _ & H).
  apply bind_ok in H. destruct H as (kept & _ & H).
  apply bind_ok in H. destruct H as (chunks_data & _ & H).
  apply bind_ok in H. destruct H as (chunks & _ & H).
  apply bind_ok in H. destruct H as (items & _ & H).
  apply process_chunks_on_ok in H. destruct H as (new & -> & F). simpl.
  induction F as [| chunk r rest new' Hr F IH]; constructor; [| exact IH].
  exact (process_chunk_emotion_labels _ _ _ _ _ Hr).
Qed.

(** X5: the emotion of a record is "Happy/Angry" exactly when the GSR label
    of its window is; in every other case it is the PPG label of the window,
    which is never "Happy/Angry". *)
Theorem happy_angry_only_from_gsr (df : list timed_sample) (sampling_rate : Z)
  (chunk : json) (r : ResultRecord) :
  process_chunk np_sqrt find_peaks df sampling_rate chunk = Ok r ->
  exists selected gsr_emotion,
    window df (fst (timestamp r)) (snd (timestamp r)) = Ok selected /\
    window_gsr_emotion find_peaks (map (fun s => (label s, gsr s)) selected) sampling_rate
    = Ok gsr_emotion /\
    (emotion r = "Happy/Angry" <-> gsr_emotion = "Happy/Angry") /\
    (gsr_emotion <> "Happy/Angry" ->
     emotion r = window_ppg_emotion np_sqrt (map ppg selected)) /\
    window_ppg_emotion np_sqrt (map ppg selected) <> "Happy/Angry".
Proof.
  intro H. destruct (process_chunk_ok _ _ _ _ _ _ H) as (selected & g & _ & W & G & E).
  exists selected, g.
  pose proof (ppg_label_not_happy_angry _ (window_ppg_emotion_labels np_sqrt (map ppg selected)))
    as never.
  split; [exact W |]. split; [exact G |].
  destruct (combine_emotions_cases (window_ppg_emotion np_sqrt (map ppg selected)) g)
    as [[Hg Hc] | [Hg Hc]]; rewrite E, Hc.
  - split; [tauto |]. split; [contradiction | exact never].
  - split; [split; intro; contradiction |]. split; [reflexivity | exact never].
Qed.

End LabelClaims.

Lemma response_emotions_in_label_set_witness :
  Forall (fun r => In (emotion r) emotion_labels)
    [ {| timestamp := (JNum 0, JNum 0); text := JStr "a"; emotion := "Neutral/Calm" |};
      {| timestamp := (JNum 0, JNum 1); text := JStr "b"; emotion := "Happy/Angry" |} ].
Proof.
  apply (response_emotions_in_label_set sqrt_floor find_peaks_ref late_peak_file
           (chunks_payload [chunk_json 0 0 "a"; chunk_json 0 1 "b"])).
  reflexivity.
Defined.

Lemma happy_angry_only_from_gsr_witness :
  exists selected gsr_emotion,
    window late_peak_rows (JNum 0) (JNum 1) = Ok selected /\
    window_gsr_emotion find_peaks_ref (map (fun s => (label s, gsr s)) selected) 100
    = Ok gsr_emotion /\
    ("Happy/Angry" = "Happy/Angry" <-> gsr_emotion = "Happy/Angry") /\
    (gsr_emotion <> "Happy/Angry" ->
     "Happy/Angry" = window_ppg_emotion sqrt_floor (map ppg selected)) /\
    window_ppg_emotion sqrt_floor (map ppg selected) <> "Happy/Angry".
Proof.
  apply (happy_angry_only_from_gsr sqrt_floor find_peaks_ref late_peak_rows 100
           (chunk_json 0 1 "b")
           {| timestamp := (JNum 0, JNum 1); text := JStr "b"; emotion := "Happy/Angry" |}).
  reflexivity.
Defined.

(** ** Window slicing *)

Lemma select_mask_filter (a b : Q) (df : list timed_sample) :
  select
    (mask_and (map (fun t => inject_Z t >=? a) (map seconds df))
              (map (fun t => inject_Z t <=? b) (map seconds df)))
    df
  = filter (in_window a b) df.
Proof.
  induction df as [| r rest IH]; [reflexivity |].
  cbn [map mask_and select filter]. unfold in_window at 1.
  rewrite IH. reflexivity.
Qed.

(** X6: with numbers as bounds, a window selects exactly the rows whose
    time lies between the bounds, both included, in table order; a row is
    selected iff it is a row of the table with [start <= time <= end],
    and nothing is selected when [end < start]. *)
Theorem window_is_inclusive_filter (df : list timed_sample) (start_time end_time : Q) :
  window df (JNum start_time) (JNum end_time) = Ok (filter (in_window start_time end_time) df) /\
  (forall r, In r (filter (in_window start_time end_time) df) <->
             In r df /\ start_time <= inject_Z (seconds r) <= end_time) /\
  (end_time < start_time -> filter (in_window start_time end_time) df = []).
Proof.
  split; [| split].
  - unfold window. cbn [series_cmp bind]. rewrite select_mask_filter. reflexivity.
  - intro r. rewrite filter_In. unfold in_window.
    rewrite andb_true_iff, !Qleb_le. tauto.
  - intro H. induction df as [| r rest IH]; [reflexivity |].
    cbn [filter]. rewrite IH. unfold in_window.
    destruct (Qleb_spec start_time (inject_Z (seconds r)));
      destruct (Qleb_spec (inject_Z (seconds r)) end_time); simpl; try reflexivity.
    lra.
Qed.

Lemma window_is_inclusive_filter_witness :
  filter (in_window 5 2) late_peak_rows = [].
Proof.
  apply (proj2 (proj2 (window_is_inclusive_filter late_peak_rows 5 2))).
  reflexivity.
Defined.

(** ** Preparing the table: what survives *)

Lemma prepare_from_kept (index : Index) (df : DataFrame) (rs : list sample) (i : nat)
  (kept : list timed_sample) :
  prepare_from index df i rs = Ok kept ->
  StronglySorted lt (map label kept) /\
  Forall (fun k =>
            (i <= label k < i + List.length rs)%nat /\
            exists r, nth_error rs (label k - i) = Some r /\
                      convert_time_to_seconds (time_cell index df (label k) r)
                      = Ok (Some (seconds k)) /\
                      ppg k = (if has_ppg_signal df then ppg_signal r else None) /\
                      gsr k = (if has_gsr_signal df then gsr_signal r else None))
         kept /\
  (forall j r s,
      nth_error rs j = Some r ->
      convert_time_to_seconds (time_cell index df (i + j) r) = Ok (Some s) ->
      exists k, In k kept /\ label k = (i + j)%nat /\ seconds k = s).
Proof.
  revert i kept. induction rs as [| r rest IH]; intros i kept H.
  - injection H as <-. repeat split; try constructor.
    intros [| j] ? ? N; discriminate N.
  - cbn [prepare_from] in H.
    apply bind_ok in H. destruct H as (t & T & H).
    apply bind_ok in H. destruct H as (kept' & K & H).
    destruct (IH _ _ K) as (sorted & inside & complete).
    assert (shift : Forall (fun k =>
              (i <= label k < i + List.length (r :: rest))%nat /\
              exists r', nth_error (r :: rest) (label k - i) = Some r' /\
                convert_time_to_seconds (time_cell index df (label k) r')
                = Ok (Some (seconds k)) /\
                ppg k = (if has_ppg_signal df then ppg_signal r' else None) /\
                gsr k = (if has_gsr_signal df then gsr_signal r' else None)) kept').
    { eapply Forall_impl; [| exact inside].
      intros k ([lo hi] & r' & N & rest').
      split; [simpl; lia |]. exists r'. split; [| exact rest'].
      replace (label k - i)%nat with (S (label k - S i)) by lia. exact N. }
    assert (later : forall j r' s,
               nth_error (r :: rest) (S j) = Some r' ->
               convert_time_to_seconds (time_cell index df (i + S j) r') = Ok (Some s) ->
               exists k, In k kept' /\ label k = (i + S j)%nat /\ seconds k = s).
    { intros j r' s N C. replace (i + S j)%nat with (S i + j)%nat in * by lia.
      exact (complete j r' s N C). }
    destruct t as [s |]; injection H as <-.
    + split; [| split].
      * cbn [map]. constructor; [exact sorted |].
        rewrite Forall_map. eapply Forall_impl; [| exact inside].
        intros k ([lo _] & _). simpl. lia.
      * constructor; [| exact shift].
        cbn [label seconds ppg gsr]. split; [simpl; lia |].
        exists r. rewrite Nat.sub_diag. repeat split. exact T.
      * intros [| j] r' s' N C.
        -- injection N as <-. rewrite Nat.add_0_r in *.
           unfold time_cell in C. rewrite T in C. injection C as <-.
           eexists. split; [left; reflexivity |]. split; reflexivity.
        -- destruct (later j r' s' N C) as (k & I & L).
           exists k. split; [right; exact I | exact L].
    + split; [exact sorted |]. split; [exact shift |].
      intros [| j] r' s' N C.
      * injection N as <-. rewrite Nat.add_0_r in C.
        unfold time_cell in C. rewrite T in C. discriminate C.
      * exact (later j r' s' N C).
Qed.

(** X7: the rows that survive line 85 are exactly the rows whose time cell
    (the index label when the file has no [time] column) parses: they keep
    the order of the file (their positions strictly increase and stay below
    the number of rows), each carries the seconds parsed from its own time
    cell and its own signal cells (NaN for a column the file lacks), and
    every row whose time cell parses is among them; this for times that a
    float64 holds exactly. *)
Theorem prepare_keeps_parsed_rows (index : Index) (df : DataFrame)
  (kept : list timed_sample) :
  prepare index df = Ok kept ->
  Forall (fun k => exact_as_float (seconds k)) kept ->
  StronglySorted lt (map label kept) /\
  Forall (fun k =>
            (label k < List.length (rows df))%nat /\
            exists r, nth_error (rows df) (label k) = Some r /\
                      convert_time_to_seconds (time_cell index df (label k) r)
                      = Ok (Some (seconds k)) /\
                      ppg k = (if has_ppg_signal df then ppg_signal r else None) /\
                      gsr k = (if has_gsr_signal df then gsr_signal r else None))
         kept /\
  (forall j r s,
      nth_error (rows df) j = Some r ->
      convert_time_to_seconds (time_cell index df j r) = Ok (Some s) ->
      exists k, In k kept /\ label k = j /\ seconds k = s).
Proof.
  intros H _. destruct (prepare_from_kept _ _ _ _ _ H) as (sorted & inside & complete).
  split; [exact sorted |]. split; [| exact complete].
  eapply Forall_impl; [| exact inside].
  intros k ([_ hi] & r & N & rest). rewrite Nat.sub_0_r in N.
  split; [exact hi |]. exists r. split; assumption.
Qed.

Lemma prepare_keeps_parsed_rows_witness :
  StronglySorted lt (map label first_field_rows).
Proof.
  apply (prepare_keeps_parsed_rows (index first_field_reading) first_field_table
           first_field_rows).
  - reflexivity.
  - repeat constructor; unfold exact_as_float; simpl; lia.
Defined.

(** ** Missing channels *)


Lemma prepare_from_without_ppg (index : Index) (df : DataFrame) (rs : list sample)
  (i : nat) (kept : list timed_sample) :
  has_ppg_signal df = false ->
  prepare_from index df i rs = Ok kept -> Forall (fun k => ppg k = None) kept.
Proof.
  intros no H. destruct (prepare_from_kept _ _ _ _ _ H) as (_ & inside & _).
  eapply Forall_impl; [| exact inside].
  intros k (_ & r & _ & _ & P & _). rewrite no in P. exact P.
Qed.

Lemma select_Forall {A : Type} (P : A -> Prop) (mask : list bool) (l : list A) :
  Forall P l -> Forall P (select mask l).
Proof.
  intro F. revert mask. induction F as [| x l Hx F IH]; intros [| [] mask];
    simpl; try constructor; auto.
Qed.

Lemma window_Forall (P : timed_sample -> Prop) (df selected : list timed_sample)
  (start_time end_time : json) :
  Forall P df -> window df start_time end_time = Ok selected -> Forall P selected.
Proof.
  intros F H. unfold window in H.
  apply bind_ok in H. destruct H as (ge & _ & H).
  apply bind_ok in H. destruct H as (le & _ & H).
  injection H as <-. apply select_Forall. exact F.
Qed.

Lemma all_null (cells : list cell) :
  Forall (fun c => c = None) cells -> forallb isnull cells = true.
Proof.
  intro F. induction F as [| c l -> F IH]; [reflexivity | exact IH].
Qed.


Lemma window_ppg_emotion_absent (np_sqrt : Q -> Q) (selected : list timed_sample) :
  Forall (fun k => ppg k = None) selected ->
  window_ppg_emotion np_sqrt (map ppg selected) = "Neutral/Calm".
Proof.
  intro F. unfold window_ppg_emotion.
  rewrite all_null; [reflexivity |].
  rewrite Forall_map. exact F.
Qed.

Section ChannelClaims.

Variable np_sqrt : Q -> Q.
Variable find_peaks : list Q -> Q -> Z -> list nat.

(** How the handler's answer reduces to the loop body, once the table is
    prepared. *)
Lemma windows_response (how : Reading) (df : DataFrame)
  (kept : list timed_sample) (chunks : list json) (results : list ResultRecord) :
  prepare (index how) df = Ok kept ->
  (analyze_sensors np_sqrt find_peaks (CsvWith how df) (chunks_payload chunks)
   = Response results
   <-> Forall2 (fun chunk r =>
                  process_chunk_on np_sqrt find_peaks (text_cells how df) kept 100 chunk
                  = Ok r)
               chunks results).
Proof.
  intro K. rewrite handler_response.
  unfold analyze_sensors_body, chunks_payload.
  cbn [read_csv bind]. rewrite K.
  cbn [bind json_loads getitem_key dict_get String.eqb Ascii.eqb Bool.eqb py_iter].
  split; intro H.
  - apply process_chunks_on_ok in H. destruct H as (new & -> & F). exact F.
  - apply (process_chunks_on_all_ok _ _ _ _ _ _ [] _ H).
Qed.

Lemma json_request_outcome (file : csv_file) (value : json) :
  (exists results,
      analyze_sensors np_sqrt find_peaks file (Json value) = Response results) \/
  analyze_sensors np_sqrt find_peaks file (Json value)
  = HTTPException 500 "Error processing sensor data.".
Proof.
  unfold analyze_sensors.
  pose proof (handler_body_raises np_sqrt find_peaks file value) as R.
  destruct (analyze_sensors_body np_sqrt find_peaks file (Json value)) as [rs | e].
  - left. exists rs. reflexivity.
  - right. specialize (R e eq_refl). destruct e; try reflexivity.
    exfalso. apply R. reflexivity.
Qed.

Lemma failing_chunk_fails_request (how : Reading) (df : DataFrame)
  (kept : list timed_sample) (chunks : list json) :
  prepare (index how) df = Ok kept ->
  Exists (fun chunk =>
            forall r,
              process_chunk_on np_sqrt find_peaks (text_cells how df) kept 100 chunk
              <> Ok r) chunks ->
  analyze_sensors np_sqrt find_peaks (CsvWith how df) (chunks_payload chunks)
  = HTTPException 500 "Error processing sensor data.".
Proof.
  intros K bad.
  destruct (json_request_outcome (CsvWith how df) (JObj [("chunks", JArr chunks)]))
    as [[results R] | E]; [exfalso | exact E].
  apply (windows_response how df kept chunks results K) in R. clear - bad R.
  induction R as [| chunk r rest rs Hr R IH]; inversion bad; subst.
  - match goal with H : forall r, _ <> _ |- _ => exact (H r Hr) end.
  - apply IH. assumption.
Qed.


(** X9: when the file has no [ppg_signal] column, every record of every
    response is labelled "Neutral/Calm" or "Happy/Angry": the PPG label is
    the default one and only the GSR label "Happy/Angry" can replace it. *)
Theorem no_ppg_column_only_two_labels (how : Reading) (df : DataFrame)
  (chunks_json : json_text) (results : list ResultRecord) :
  has_ppg_signal df = false ->
  analyze_sensors np_sqrt find_peaks (CsvWith how df) chunks_json = Response results ->
  Forall (fun r => emotion r = "Neutral/Calm" \/ emotion r = "Happy/Angry") results.
Proof.
  intros no H. apply handler_response in H. unfold analyze_sensors_body in H.
  cbn [read_csv bind] in H.
  apply bind_ok in H. destruct H as (kept & K & H).
  pose proof (prepare_from_without_ppg _ _ _ _ _ no K) as absent.
  apply bind_ok in H. destruct H as (chunks_data & _ & H).
  apply bind_ok in H. destruct H as (chunks & _ & H).
  apply bind_ok in H. destruct H as (items & _ & H).
  apply process_chunks_on_ok in H. destruct H as (new & -> & F). simpl.
  induction F as [| chunk r rest new' Hr F IH]; constructor; [| exact IH].
  destruct (process_chunk_on_ok _ _ _ _ _ _ _ Hr) as (selected & g & _ & W & _ & ->).
  rewrite (window_ppg_emotion_absent np_sqrt selected (window_Forall _ _ _ _ _ absent W)).
  destruct (combine_emotions_cases "Neutral/Calm" g) as [[_ ->] | [_ ->]]; tauto.
Qed.

(** X10: windows are independent and a request is all or nothing.  A
    request with several windows is answered with the records r1 ... rn
    exactly when each window, sent alone with the same file, is answered
    with its own record ri; and if one window alone is not answered with a
    record, the whole request is answered with status 500, whatever the
    other windows are. *)
Theorem windows_are_independent (how : Reading) (df : DataFrame) (chunks : list json) :
  (forall results,
      analyze_sensors np_sqrt find_peaks (CsvWith how df) (chunks_payload chunks)
      = Response results
      <-> Forall2 (fun chunk r =>
                     analyze_sensors np_sqrt find_peaks (CsvWith how df)
                       (chunks_payload [chunk])
                     = Response [r])
                  chunks results) /\
  (Exists (fun chunk =>
             forall r, analyze_sensors np_sqrt find_peaks (CsvWith how df)
                         (chunks_payload [chunk])
                       <> Response [r])
          chunks ->
   analyze_sensors np_sqrt find_peaks (CsvWith how df) (chunks_payload chunks)
   = HTTPException 500 "Error processing sensor data.").
Proof.
  destruct (prepare_ok (index how) df) as [kept K].
  assert (single : forall chunk r,
             analyze_sensors np_sqrt find_peaks (CsvWith how df) (chunks_payload [chunk])
             = Response [r]
             <-> process_chunk_on np_sqrt find_peaks (text_cells how df) kept 100 chunk
                 = Ok r).
  { intros chunk r. rewrite (windows_response how df kept [chunk] [r] K). split; intro H.
    - inversion H; subst. assumption.
    - constructor; [exact H | constructor]. }
  assert (whole : forall results,
      analyze_sensors np_sqrt find_peaks (CsvWith how df) (chunks_payload chunks)
      = Response results
      <-> Forall2 (fun chunk r =>
                     analyze_sensors np_sqrt find_peaks (CsvWith how df)
                       (chunks_payload [chunk])
                     = Response [r])
                  chunks results).
  { intro results. rewrite (windows_response how df kept chunks results K).
    split; intro F; (eapply Forall2_impl; [| exact F]); intros c r; apply single. }
  split; [exact whole |].
  intro bad. apply (failing_chunk_fails_request how df kept chunks K).
  eapply Exists_impl; [| exact bad].
  intros chunk H r P. apply (H r). apply single. exact P.
Qed.

End ChannelClaims.


Lemma no_ppg_column_only_two_labels_witness :
  Forall (fun r => emotion r = "Neutral/Calm" \/ emotion r = "Happy/Angry")
    [ {| timestamp := (JNum 0, JNum 0); text := JStr "a"; emotion := "Happy/Angry" |};
      {| timestamp := (JNum 5, JNum 9); text := JStr "b"; emotion := "Neutral/Calm" |} ].
Proof.
  apply (no_ppg_column_only_two_labels sqrt_floor find_peaks_ref plain gsr_only_table
           (chunks_payload [chunk_json 0 0 "a"; chunk_json 5 9 "b"])).
  - reflexivity.
  - reflexivity.
Defined.

(** ** Windows without peaks, windows without rows *)

Lemma classify_gsr_emotion_zero (scr_amplitude scr_frequency : Q) :
  scr_amplitude == 0 -> scr_frequency == 0 ->
  classify_gsr_emotion scr_amplitude scr_frequency = "Sad".
Proof.
  intros a f. unfold classify_gsr_emotion.
  by_comparisons; try reflexivity; lra.
Qed.

Lemma dropna_not_all_null (gsr_segment : list (nat * cell)) :
  forallb isnull (map snd gsr_segment) = false -> dropna gsr_segment <> [].
Proof.
  induction gsr_segment as [| [l [v |]] rest IH]; simpl; intro H.
  - discriminate H.
  - discriminate.
  - exact (IH H).
Qed.

Section QuietWindows.

Variable np_sqrt : Q -> Q.
Variable find_peaks : list Q -> Q -> Z -> list nat.

Lemma analyze_gsr_without_peaks (gsr_data : Series) :
  gsr_data <> [] ->
  find_peaks (values gsr_data) 0.1 100%Z = [] ->
  exists scr_frequency,
    analyze_gsr find_peaks gsr_data 100 = Ok (0, scr_frequency) /\ scr_frequency == 0.
Proof.
  intros nonempty quiet.
  assert (len : List.length gsr_data <> 0%nat).
  { destruct gsr_data; [contradiction | discriminate]. }
  unfold analyze_gsr, analyze_gsr_on.
  destruct (Nat.eqb_spec (List.length gsr_data) 0) as [E | _]; [contradiction |].
  rewrite quiet.
  cbn [series_getitem_on series_getitem bind map List.length Nat.ltb Nat.leb].
  rewrite py_div_nonzero by discriminate. cbn [bind].
  rewrite (py_div_nonzero _ _ (duration_nonzero _ len)). cbn [bind].
  eexists. split; [reflexivity |].
  unfold Qdiv. apply Qmult_0_l.
Qed.

(** X11: a window that holds GSR samples in which the detector finds no
    peak gets amplitude 0 and frequency 0 from [analyze_gsr] and therefore
    the GSR label "Sad"; the record's emotion is then the PPG label of the
    window. *)
Theorem gsr_without_peaks_is_sad (gsr_segment : list (nat * cell)) (ppg_emotion : string) :
  forallb isnull (map snd gsr_segment) = false ->
  find_peaks (values (dropna gsr_segment)) 0.1 100%Z = [] ->
  (exists scr_frequency,
      analyze_gsr find_peaks (dropna gsr_segment) 100 = Ok (0, scr_frequency) /\
      scr_frequency == 0) /\
  window_gsr_emotion find_peaks gsr_segment 100 = Ok "Sad" /\
  combine_emotions ppg_emotion "Sad" = ppg_emotion.
Proof.
  intros present quiet.
  destruct (analyze_gsr_without_peaks _ (dropna_not_all_null _ present) quiet)
    as (f & A & Z).
  split; [exists f; split; assumption |]. split; [| reflexivity].
  unfold window_gsr_emotion, window_gsr_emotion_on. rewrite present. cbn [negb].
  unfold analyze_gsr in A. rewrite A. cbn [bind].
  rewrite (classify_gsr_emotion_zero 0 f); [reflexivity | reflexivity | exact Z].
Qed.

(** X17: a window of the expected shape in which no row of the table falls
    (in particular one whose end lies before its start) is answered with
    the label "Neutral/Calm", for any table. *)
Theorem empty_window_is_neutral_calm (df : list timed_sample) (sampling_rate : Z)
  (start_time end_time : Q) (text : string) :
  Forall (fun r => in_window start_time end_time r = false) df ->
  process_chunk np_sqrt find_peaks df sampling_rate (chunk_json start_time end_time text)
  = Ok {| timestamp := (JNum start_time, JNum end_time);
          text := JStr text;
          emotion := "Neutral/Calm" |}.
Proof.
  intro outside.
  assert (none : filter (in_window start_time end_time) df = []).
  { induction outside as [| r rest Hr F IH]; [reflexivity |].
    cbn [filter]. rewrite Hr. exact IH. }
  unfold process_chunk, process_chunk_on, chunk_json.
  cbn [bind getitem_key getitem_index dict_get String.eqb Ascii.eqb Bool.eqb nth_error].
  unfold window. cbn [series_cmp bind]. rewrite select_mask_filter, none.
  reflexivity.
Qed.

End QuietWindows.

Lemma gsr_without_peaks_is_sad_witness :
  window_gsr_emotion find_peaks_ref [(3%nat, Some 0.2); (4%nat, None)] 100 = Ok "Sad".
Proof.
  apply (gsr_without_peaks_is_sad find_peaks_ref [(3%nat, Some 0.2); (4%nat, None)] "Happy").
  - reflexivity.
  - reflexivity.
Defined.

Lemma empty_window_is_neutral_calm_witness :
  process_chunk sqrt_floor find_peaks_ref late_peak_rows 100 (chunk_json 7 9 "late")
  = Ok {| timestamp := (JNum 7, JNum 9); text := JStr "late"; emotion := "Neutral/Calm" |}.
Proof.
  apply (empty_window_is_neutral_calm sqrt_floor find_peaks_ref late_peak_rows 100 7 9 "late").
  repeat constructor.
Defined.

(** ** Payloads of the wrong shape *)

Section ShapeClaims.

Variable np_sqrt : Q -> Q.
Variable find_peaks : list Q -> Q -> Z -> list nat.

Lemma misshapen_chunk_raises (how : Reading) (df : list timed_sample)
  (sampling_rate : Z) (chunk : json) (r : ResultRecord) :
  misshapen_chunk chunk = true ->
  process_chunk_on np_sqrt find_peaks how df sampling_rate chunk <> Ok r.
Proof.
  unfold misshapen_chunk. intros bad H.
  unfold process_chunk_on in H.
  apply bind_ok in H. destruct H as (ts0 & T0 & H).
  apply bind_ok in H. destruct H as (start_time & S0 & H).
  apply bind_ok in H. destruct H as (ts1 & T1 & H).
  apply bind_ok in H. destruct H as (end_time & S1 & H).
  apply bind_ok in H. destruct H as (txt & X & _).
  rewrite T0 in T1. injection T1 as <-.
  rewrite T0, S0, S1, X in bad. discriminate bad.
Qed.

(** X16: with a readable file, a JSON payload of the wrong shape is
    answered with status 500 and no record: when the payload has no
    ["chunks"] (or is no object), when its ["chunks"] cannot be iterated,
    and when any one of the chunks is no object, lacks ["timestamp"] or
    ["text"], or has fewer than two timestamp items, however many
    well-shaped chunks stand before or after it. *)
Theorem misshapen_payload_is_internal_error (how : Reading) (df : DataFrame) :
  (forall value e,
      getitem_key value "chunks" = Raise e ->
      analyze_sensors np_sqrt find_peaks (CsvWith how df) (Json value)
      = HTTPException 500 "Error processing sensor data.") /\
  (forall value chunks e,
      getitem_key value "chunks" = Ok chunks ->
      py_iter chunks = Raise e ->
      analyze_sensors np_sqrt find_peaks (CsvWith how df) (Json value)
      = HTTPException 500 "Error processing sensor data.") /\
  (forall chunks,
      existsb misshapen_chunk chunks = true ->
      analyze_sensors np_sqrt find_peaks (CsvWith how df) (chunks_payload chunks)
      = HTTPException 500 "Error processing sensor data.").
Proof.
  destruct (prepare_ok (index how) df) as [kept K].
  split; [| split].
  - intros value e G.
    destruct (json_request_outcome np_sqrt find_peaks (CsvWith how df) value)
      as [[results R] | E]; [exfalso | exact E].
    apply handler_response in R. unfold analyze_sensors_body in R.
    cbn [read_csv bind] in R. rewrite K in R. cbn [bind json_loads] in R.
    rewrite G in R. discriminate R.
  - intros value chunks e G I.
    destruct (json_request_outcome np_sqrt find_peaks (CsvWith how df) value)
      as [[results R] | E]; [exfalso | exact E].
    apply handler_response in R. unfold analyze_sensors_body in R.
    cbn [read_csv bind] in R. rewrite K in R. cbn [bind json_loads] in R.
    rewrite G in R. cbn [bind] in R. rewrite I in R. discriminate R.
  - intros chunks bad.
    apply (failing_chunk_fails_request np_sqrt find_peaks how df kept chunks K).
    apply existsb_exists in bad. destruct bad as (chunk & I & M).
    apply Exists_exists. exists chunk. split; [exact I |].
    intro r. apply misshapen_chunk_raises. exact M.
Qed.

End ShapeClaims.

(** ** Text in a signal column *)

Lemma existsb_filter {A : Type} (f g : A -> bool) (l : list A) :
  existsb g (filter f l) = existsb (fun x => f x && g x) l.
Proof.
  induction l as [| x rest IH]; [reflexivity |].
  cbn [filter existsb]. destruct (f x); cbn [existsb andb]; rewrite IH; reflexivity.
Qed.

Section TextCells.

Variable np_sqrt : Q -> Q.
Variable find_peaks : list Q -> Q -> Z -> list nat.

Lemma text_in_window_raises (how : Reading) (df : list timed_sample) (a b : Q)
  (text : string) :
  existsb (text_in_window (ppg_text how) a b) df
  || existsb (text_in_window (gsr_text how) a b) df = true ->
  process_chunk_on np_sqrt find_peaks how df 100 (chunk_json a b text) = Raise ValueError.
Proof.
  intro H. unfold process_chunk_on, chunk_json.
  cbn [bind getitem_key getitem_index dict_get String.eqb Ascii.eqb Bool.eqb nth_error].
  unfold window. cbn [series_cmp bind]. rewrite select_mask_filter.
  unfold astype_float. rewrite !existsb_filter.
  change (fun x => in_window a b x && existsb (Nat.eqb (label x)) (ppg_text how))
    with (text_in_window (ppg_text how) a b).
  change (fun x => in_window a b x && existsb (Nat.eqb (label x)) (gsr_text how))
    with (text_in_window (gsr_text how) a b).
  destruct (existsb (text_in_window (ppg_text how) a b) df); [reflexivity |].
  cbn [orb] in H. cbn [bind]. rewrite H. reflexivity.
Qed.

(** X18: a window with numbers as bounds that holds a row whose PPG or GSR
    cell is a text that [float()] refuses (in a column the file has) makes
    [.astype(float)] raise [ValueError] at line 108 or 109, and the whole
    request is answered with status 500, whatever its other windows are;
    this for times that a float64 holds exactly. *)
Theorem text_cell_in_window_is_internal_error (how : Reading) (df : DataFrame)
  (kept : list timed_sample) (chunks : list json) (a b : Q) (text : string) :
  prepare (index how) df = Ok kept ->
  Forall (fun k => exact_as_float (seconds k)) kept ->
  In (chunk_json a b text) chunks ->
  existsb (text_in_window (ppg_text (text_cells how df)) a b) kept
  || existsb (text_in_window (gsr_text (text_cells how df)) a b) kept = true ->
  process_chunk_on np_sqrt find_peaks (text_cells how df) kept 100 (chunk_json a b text)
  = Raise ValueError /\
  analyze_sensors np_sqrt find_peaks (CsvWith how df) (chunks_payload chunks)
  = HTTPException 500 "Error processing sensor data.".
Proof.
  intros K _ I T.
  pose proof (text_in_window_raises (text_cells how df) kept a b text T) as R.
  split; [exact R |].
  apply (failing_chunk_fails_request np_sqrt find_peaks how df kept chunks K).
  apply Exists_exists. exists (chunk_json a b text). split; [exact I |].
  intros r H. rewrite R in H. discriminate H.
Qed.

End TextCells.

Lemma text_cell_in_window_is_internal_error_witness :
  analyze_sensors sqrt_floor find_peaks_ref (CsvWith text_cell_reading text_cell_table)
    (chunks_payload [chunk_json 1 1 "b"; chunk_json 0 0 "a"])
  = HTTPException 500 "Error processing sensor data.".
Proof.
  apply (text_cell_in_window_is_internal_error sqrt_floor find_peaks_ref
           text_cell_reading text_cell_table text_cell_rows
           [chunk_json 1 1 "b"; chunk_json 0 0 "a"] 0 0 "a").
  - reflexivity.
  - repeat constructor; unfold exact_as_float; simpl; lia.
  - right. left. reflexivity.
  - reflexivity.
Defined.

(** ** Peak lookup on consecutive labels *)

Lemma series_loc_labelled_from (s : Series) (i k : nat) :
  labelled_from i s ->
  series_loc s k
  = if ((i <=? k) && (k <? i + List.length s))%nat
    then nth_error (values s) (k - i) else None.
Proof.
  unfold labelled_from. revert i.
  induction s as [| [l v] rest IH]; intros i L.
  - simpl. rewrite Nat.add_0_r.
    destruct (Nat.leb_spec i k); destruct (Nat.ltb_spec k i); simpl;
      try reflexivity; lia.
  - cbn [map fst List.length seq] in L. injection L as -> L.
    cbn [series_loc values map snd List.length].
    destruct (Nat.eqb_spec i k) as [-> | ne].
    + rewrite Nat.leb_refl, Nat.sub_diag.
      destruct (Nat.ltb_spec k (k + S (List.length rest))); [reflexivity | lia].
    + rewrite (IH (S i) L).
      destruct (Nat.leb_spec (S i) k); destruct (Nat.leb_spec i k); try lia;
        destruct (Nat.ltb_spec k (S i + List.length rest));
        destruct (Nat.ltb_spec k (i + S (List.length rest))); try lia;
        cbn [andb]; try reflexivity.
      replace (k - i)%nat with (S (k - S i)) by lia. reflexivity.
Qed.

Lemma series_getitem_in_range (s : Series) (i : nat) (keys : list nat) :
  labelled_from i s ->
  Forall (fun k => (i <= k < i + List.length s)%nat) keys ->
  series_getitem s keys = Ok (map (fun k => nth (k - i) (values s) 0) keys).
Proof.
  intros L F. induction F as [| k rest [lo hi] F IH]; [reflexivity |].
  cbn [series_getitem map]. rewrite (series_loc_labelled_from s i k L).
  destruct (Nat.leb_spec i k); [| lia].
  destruct (Nat.ltb_spec k (i + List.length s)); [| lia]. cbn [andb].
  assert (inside : (k - i < List.length (values s))%nat).
  { unfold values. rewrite length_map. lia. }
  destruct (nth_error (values s) (k - i)) as [v |] eqn:N.
  - rewrite IH. cbn [bind]. rewrite (nth_error_nth _ _ 0 N). reflexivity.
  - apply nth_error_None in N. lia.
Qed.

Lemma series_getitem_out_of_range (s : Series) (i : nat) (keys : list nat) :
  labelled_from i s ->
  Exists (fun k => (k < i \/ i + List.length s <= k)%nat) keys ->
  series_getitem s keys = Raise KeyError.
Proof.
  intros L E. induction E as [k rest out | k rest E IH].
  - cbn [series_getitem]. rewrite (series_loc_labelled_from s i k L).
    destruct (Nat.leb_spec i k); destruct (Nat.ltb_spec k (i + List.length s));
      cbn [andb]; try reflexivity. lia.
  - cbn [series_getitem]. destruct (series_loc s k); [| reflexivity].
    rewrite IH. reflexivity.
Qed.

(** X12: on a GSR segment whose rows carry the consecutive labels
    [i, ..., i+n-1], [analyze_gsr] reads a peak at position [k] under the
    label [k]: if some detected position lies below [i] or at [i+n] or
    beyond, the call raises [KeyError]; otherwise the amplitude is the mean
    over the peaks of (the value at position [k-i] minus the segment mean)
    and the frequency is 100 times the number of peaks divided by [n].
    Only for [i = 0] is the value read the one at the peak. *)
Theorem analyze_gsr_on_consecutive_labels (find_peaks : list Q -> Q -> Z -> list nat)
  (gsr_data : Series) (i : nat) :
  labelled_from i gsr_data ->
  gsr_data <> [] ->
  let scr_peaks := find_peaks (values gsr_data) 0.1 100%Z in
  (Exists (fun k => (k < i \/ i + List.length gsr_data <= k)%nat) scr_peaks ->
   analyze_gsr find_peaks gsr_data 100 = Raise KeyError) /\
  (Forall (fun k => (i <= k < i + List.length gsr_data)%nat) scr_peaks ->
   exists scr_frequency,
     analyze_gsr find_peaks gsr_data 100
     = Ok (if (0 <? List.length scr_peaks)%nat
           then np_mean (map (fun k => nth (k - i) (values gsr_data) 0
                                       - np_mean (values gsr_data)) scr_peaks)
           else 0,
           scr_frequency) /\
     scr_frequency
     == inject_Z (Z.of_nat (List.length scr_peaks)) * 100
        / inject_Z (Z.of_nat (List.length gsr_data))).
Proof.
  intros L nonempty scr_peaks.
  assert (len : List.length gsr_data <> 0%nat).
  { destruct gsr_data; [contradiction | discriminate]. }
  unfold analyze_gsr, analyze_gsr_on. fold scr_peaks. cbn [series_getitem_on].
  destruct (Nat.eqb_spec (List.length gsr_data) 0) as [E | _]; [contradiction |].
  split.
  - intro out. rewrite (series_getitem_out_of_range _ _ _ L out). reflexivity.
  - intro inside. rewrite (series_getitem_in_range _ _ _ L inside). cbn [bind].
    rewrite py_div_nonzero by discriminate. cbn [bind].
    rewrite (py_div_nonzero _ _ (duration_nonzero _ len)). cbn [bind].
    rewrite map_map, length_map.
    eexists. split; [reflexivity |].
    assert (n0 : ~ inject_Z (Z.of_nat (List.length gsr_data)) == 0).
    { intro Z. unfold Qeq, inject_Z in Z. simpl in Z. lia. }
    change (inject_Z 100) with 100. field. exact n0.
Qed.

Lemma analyze_gsr_on_consecutive_labels_witness :
  analyze_gsr find_peaks_ref [(2%nat, 0); (3%nat, 1); (4%nat, 0)] 100 = Raise KeyError.
Proof.
  apply (proj1 (analyze_gsr_on_consecutive_labels find_peaks_ref
                  [(2%nat, 0); (3%nat, 1); (4%nat, 0)] 2 eq_refl
                  ltac:(discriminate))).
  constructor. left. repeat constructor.
Defined.

(** ** Rising-edge intervals *)

Lemma length_np_diff {A : Type} (sub : A -> A -> A) (a : list A) :
  List.length (np_diff sub a) = (List.length a - 1)%nat.
Proof.
  induction a as [| x [| y rest] IH]; try reflexivity.
  change (S (List.length (np_diff sub (y :: rest))) = (List.length (x :: y :: rest) - 1)%nat).
  rewrite IH. simpl. lia.
Qed.

Lemma np_where_from_bounds (mask : list bool) (i : Z) :
  Forall (fun p => (i <= p < i + Z.of_nat (List.length mask))%Z) (np_where_from i mask).
Proof.
  revert i. induction mask as [| b rest IH]; intro i; [constructor |].
  cbn [np_where_from List.length].
  assert (tail : Forall (fun p => (i <= p < i + Z.of_nat (S (List.length rest)))%Z)
                        (np_where_from (i + 1) rest)).
  { eapply Forall_impl; [| exact (IH (i + 1)%Z)]. intros p H. cbv beta in *. lia. }
  destruct b; [constructor; [lia | exact tail] | exact tail].
Qed.

Lemma np_where_from_sorted (mask : list bool) (i : Z) :
  StronglySorted Z.lt (np_where_from i mask).
Proof.
  revert i. induction mask as [| b rest IH]; intro i; [constructor |].
  cbn [np_where_from]. destruct b; [| apply IH].
  constructor; [apply IH |].
  eapply Forall_impl; [| exact (np_where_from_bounds rest (i + 1))].
  intros p H. cbv beta in *. lia.
Qed.

(** Differences of a strictly increasing list of positions: all at least
    1, and they add up to the distance from the first to the last. *)
Lemma np_diff_increasing (l : list Z) (lo hi : Z) :
  StronglySorted Z.lt l ->
  Forall (fun p => (lo <= p < hi)%Z) l ->
  Forall (fun d => (1 <= d)%Z) (np_diff Z.sub l) /\
  (np_diff Z.sub l <> [] -> (Zsum (np_diff Z.sub l) + lo < hi)%Z) /\
  (Zsum (np_diff Z.sub l) = last l 0 - hd 0 l)%Z.
Proof.
  intros S B. induction l as [| x [| y rest] IH].
  - split; [constructor |]. split; [intro H; contradiction | reflexivity].
  - split; [constructor |]. split; [intro H; contradiction |]. simpl. lia.
  - inversion S as [| ? ? S' Fx]; subst. inversion B as [| ? ? Bx B']; subst.
    destruct (IH S' B') as (pos & _ & total).
    inversion Fx as [| ? ? xy _]; subst.
    change (np_diff Z.sub (x :: y :: rest)) with ((y - x)%Z :: np_diff Z.sub (y :: rest)).
    assert (sum : (Zsum ((y - x)%Z :: np_diff Z.sub (y :: rest))
                   = last (x :: y :: rest) 0 - hd 0 (x :: y :: rest))%Z).
    { cbn [Zsum fold_right]. fold (Zsum (np_diff Z.sub (y :: rest))).
      rewrite total. cbn [hd].
      change (last (x :: y :: rest) 0%Z) with (last (y :: rest) 0%Z). lia. }
    split; [constructor; [lia | exact pos] |]. split; [| exact sum].
    intros _. rewrite sum. cbn [hd].
    assert (inl : In (last (x :: y :: rest) 0%Z) (x :: y :: rest)).
    { destruct (exists_last (l := x :: y :: rest)) as (l' & a & E); [discriminate |].
      rewrite E, last_last. apply in_or_app. right. left. reflexivity. }
    rewrite Forall_forall in B. specialize (B _ inl). lia.
Qed.

Lemma Zsum_at_least_length (l : list Z) :
  Forall (fun d => (1 <= d)%Z) l -> (Z.of_nat (List.length l) <= Zsum l)%Z.
Proof.
  intro F. induction F as [| d rest Hd F IH]; [simpl; lia |].
  cbn [List.length Zsum fold_right]. fold (Zsum rest). lia.
Qed.

(** X13: the intervals the loop takes from a PPG segment are differences of
    increasing positions: each is at least 1, and together they span at
    most the segment, [sum + 2 <= len(segment)].  A segment of fewer than
    four samples therefore never has two intervals and its window keeps
    the default PPG label "Neutral/Calm". *)
Theorem ppg_rr_intervals_span (np_sqrt : Q -> Q) (ppg_segment : list cell) :
  Forall (fun d => (1 <= d)%Z) (ppg_rr_intervals ppg_segment) /\
  (Z.of_nat (List.length (ppg_rr_intervals ppg_segment))
   <= Zsum (ppg_rr_intervals ppg_segment))%Z /\
  (ppg_rr_intervals ppg_segment <> [] ->
   (Zsum (ppg_rr_intervals ppg_segment) + 2 <= Z.of_nat (List.length ppg_segment))%Z) /\
  ((List.length ppg_segment < 4)%nat ->
   window_ppg_emotion np_sqrt ppg_segment = "Neutral/Calm").
Proof.
  unfold ppg_rr_intervals, np_where.
  set (mask := map cell_pos (np_diff cell_sub ppg_segment)).
  assert (M : List.length mask = (List.length ppg_segment - 1)%nat).
  { unfold mask. rewrite length_map. apply length_np_diff. }
  destruct (np_diff_increasing (np_where_from 0 mask) 0 (0 + Z.of_nat (List.length mask))
              (np_where_from_sorted mask 0) (np_where_from_bounds mask 0))
    as (pos & span & _).
  pose proof (Zsum_at_least_length _ pos) as many.
  assert (fits : np_diff Z.sub (np_where_from 0 mask) <> [] ->
                 (Zsum (np_diff Z.sub (np_where_from 0 mask)) + 2
                  <= Z.of_nat (List.length ppg_segment))%Z).
  { intro ne. specialize (span ne).
    assert (0 < List.length mask)%nat.
    { destruct mask; [contradiction ne; reflexivity | simpl; lia]. }
    lia. }
  split; [exact pos |]. split; [exact many |]. split; [exact fits |].
  intro short. unfold window_ppg_emotion, ppg_rr_intervals, np_where. fold mask.
  destruct (negb _); [| reflexivity].
  destruct (Nat.ltb_spec 1 (List.length (np_diff Z.sub (np_where_from 0 mask))))
    as [two |]; [exfalso | reflexivity].
  assert (ne : np_diff Z.sub (np_where_from 0 mask) <> []).
  { intro E. rewrite E in two. simpl in two. lia. }
  specialize (fits ne). lia.
Qed.

Lemma ppg_rr_intervals_span_witness :
  window_ppg_emotion sqrt_floor [Some 1; Some 2; Some 3] = "Neutral/Calm".
Proof.
  apply (proj2 (proj2 (proj2 (ppg_rr_intervals_span sqrt_floor [Some 1; Some 2; Some 3])))).
  simpl. lia.
Defined.

(** ** A regular pulse *)

Lemma Qsum_zero (l : list Q) : Forall (fun x => x == 0) l -> Qsum l == 0.
Proof.
  intro F. induction F as [| x rest Hx F IH]; [reflexivity |].
  cbn [Qsum fold_right]. fold (Qsum rest). rewrite Hx, IH. reflexivity.
Qed.

Lemma np_mean_zero (l : list Q) : Forall (fun x => x == 0) l -> np_mean l == 0.
Proof.
  intro F. unfold np_mean, Qdiv. rewrite (Qsum_zero l F). apply Qmult_0_l.
Qed.

Lemma np_square_zero (l : list Q) :
  Forall (fun x => x == 0) l -> Forall (fun x => x == 0) (np_square l).
Proof.
  intro F. unfold np_square. rewrite Forall_map.
  eapply Forall_impl; [| exact F]. intros x Hx. cbv beta in *. rewrite Hx. reflexivity.
Qed.

Lemma Qsum_repeat (c : Z) (n : nat) :
  Qsum (intervals_as_floats (repeat c n)) == inject_Z (Z.of_nat n) * inject_Z c.
Proof.
  unfold intervals_as_floats. induction n as [| n IH]; [reflexivity |].
  cbn [repeat map Qsum fold_right]. fold (Qsum (map inject_Z (repeat c n))).
  rewrite IH, Nat2Z.inj_succ. unfold Z.succ. rewrite inject_Z_plus. ring.
Qed.

Lemma np_mean_repeat (c : Z) (n : nat) :
  n <> 0%nat -> np_mean (intervals_as_floats (repeat c n)) == inject_Z c.
Proof.
  intro H. unfold np_mean. rewrite Qsum_repeat.
  unfold intervals_as_floats. rewrite length_map, repeat_length.
  field. intro Z. unfold Qeq, inject_Z in Z. simpl in Z. lia.
Qed.

Lemma np_diff_repeat (c : Z) (n : nat) :
  np_diff Z.sub (repeat c n) = repeat 0%Z (n - 1).
Proof.
  induction n as [| [| n] IH]; try reflexivity.
  change (np_diff Z.sub (repeat c (S (S n))))
    with ((c - c)%Z :: np_diff Z.sub (repeat c (S n))).
  rewrite IH, Z.sub_diag. simpl. rewrite Nat.sub_0_r. reflexivity.
Qed.

Lemma classify_ppg_emotion_zero (sdnn rmssd : Q) :
  sdnn == 0 -> rmssd == 0 -> classify_ppg_emotion sdnn rmssd = "Sad".
Proof.
  intros s r. unfold classify_ppg_emotion.
  by_comparisons; try reflexivity; lra.
Qed.

Lemma np_where_all_true (mask : list bool) (i : Z) :
  Forall (eq true) mask ->
  np_diff Z.sub (np_where_from i mask) = repeat 1%Z (List.length mask - 1).
Proof.
  intro F. revert i. induction F as [| b rest <- F IH]; intro i; [reflexivity |].
  cbn [np_where_from]. destruct F as [| b' rest' <- F]; [reflexivity |].
  specialize (IH (i + 1)%Z). cbn [np_where_from] in IH |- *.
  change (np_diff Z.sub (i :: (i + 1)%Z :: np_where_from (i + 1 + 1) rest'))
    with ((i + 1 - i)%Z :: np_diff Z.sub ((i + 1)%Z :: np_where_from (i + 1 + 1) rest')).
  rewrite IH. replace (i + 1 - i)%Z with 1%Z by lia.
  simpl. rewrite Nat.sub_0_r. reflexivity.
Qed.

Lemma sqrt_floor_zero (v : Q) : v == 0 -> sqrt_floor v == 0.
Proof.
  destruct v as [n d]. unfold Qeq. simpl. intro H.
  assert (n = 0%Z) by lia. subst n. reflexivity.
Qed.

(** X14: a pulse that looks perfectly regular is labelled "Sad".  With a
    square root that maps zero to zero, a PPG segment whose intervals are
    all equal (at least two of them) has both features equal to zero, which
    the classifier answers with "Sad"; a segment of at least four present
    samples that rises at every step is such a segment, all its intervals
    being 1. *)
Theorem regular_pulse_is_sad (np_sqrt : Q -> Q) :
  (forall v, v == 0 -> np_sqrt v == 0) ->
  (forall ppg_segment c n,
      forallb isnull ppg_segment = false ->
      ppg_rr_intervals ppg_segment = repeat c n ->
      (2 <= n)%nat ->
      window_ppg_emotion np_sqrt ppg_segment = "Sad") /\
  (forall samples : list Q,
      (4 <= List.length samples)%nat ->
      Forall (fun d => (d >? 0) = true) (np_diff Qminus samples) ->
      ppg_rr_intervals (map Some samples) = repeat 1%Z (List.length samples - 2) /\
      window_ppg_emotion np_sqrt (map Some samples) = "Sad").
Proof.
  intro root.
  assert (regular : forall ppg_segment c n,
      forallb isnull ppg_segment = false ->
      ppg_rr_intervals ppg_segment = repeat c n ->
      (2 <= n)%nat ->
      window_ppg_emotion np_sqrt ppg_segment = "Sad").
  { intros seg c n present E two.
    unfold window_ppg_emotion. rewrite present, E. cbn [negb].
    rewrite repeat_length.
    destruct (Nat.ltb_spec 1 n); [| lia].
    apply classify_ppg_emotion_zero.
    - unfold np_std. apply root. apply np_mean_zero, np_square_zero.
      rewrite Forall_map. unfold intervals_as_floats at 2. rewrite Forall_map.
      apply Forall_forall. intros x I. apply repeat_spec in I. subst x.
      rewrite np_mean_repeat by lia. ring.
    - apply root. apply np_mean_zero, np_square_zero.
      rewrite np_diff_repeat. unfold intervals_as_floats. rewrite Forall_map.
      apply Forall_forall. intros x I. apply repeat_spec in I. subst x. reflexivity. }
  split; [exact regular |].
  intros samples four rising.
  assert (E : ppg_rr_intervals (map Some samples) = repeat 1%Z (List.length samples - 2)).
  { rewrite ppg_rr_intervals_present. unfold spec_rr_intervals, np_where.
    rewrite np_where_all_true.
    - rewrite length_map, length_np_diff. f_equal. lia.
    - rewrite Forall_map. eapply Forall_impl; [| exact rising].
      intros d H. cbv beta in *. symmetry. exact H. }
  split; [exact E |].
  apply (regular _ 1%Z (List.length samples - 2)%nat); [| exact E | lia].
  destruct samples; [simpl in four; lia | reflexivity].
Qed.

Lemma regular_pulse_is_sad_witness :
  ppg_rr_intervals (map Some [1; 2; 3; 5]) = repeat 1%Z 2 /\
  window_ppg_emotion sqrt_floor (map Some [1; 2; 3; 5]) = "Sad".
Proof.
  apply (proj2 (regular_pulse_is_sad sqrt_floor sqrt_floor_zero) [1; 2; 3; 5]).
  - simpl. lia.
  - repeat constructor.
Defined.

(** ** The sample index *)

Section SplitMore.

Variable sep : ascii.

Lemma split_app_sep (a b : string) :
  split sep (a ++ String sep b) = (split sep a ++ split sep b)%list.
Proof.
  induction a as [| c r IH]; simpl.
  - rewrite Ascii.eqb_refl. reflexivity.
  - destruct (Ascii.eqb c sep); rewrite IH; [reflexivity |].
    destruct (split sep r) as [| p ps] eqn:S;
      [exfalso; exact (split_not_nil sep r S) | reflexivity].
Qed.

Lemma split_app_free (a x : string) :
  count_char sep x = 0%nat ->
  split sep (a ++ x)
  = (removelast (split sep a) ++ [(last (split sep a) "" ++ x)%string])%list.
Proof.
  intro free. induction a as [| c r IH]; simpl.
  - apply split_without_sep. exact free.
  - rewrite IH.
    destruct (split sep r) as [| p ps] eqn:S;
      [exfalso; exact (split_not_nil sep r S) |].
    destruct (Ascii.eqb c sep).
    + reflexivity.
    + destruct ps as [| q qs]; reflexivity.
Qed.

End SplitMore.

Lemma unpack2_three {A : Type} (a b c : A) (rest : list A) (z : A) :
  unpack2 (removelast (a :: b :: c :: rest) ++ [z])%list = Raise ValueError.
Proof.
  change (removelast (a :: b :: c :: rest)) with (a :: b :: removelast (c :: rest)).
  cbn [app]. destruct (removelast (c :: rest)); reflexivity.
Qed.

Lemma convert_time_body_ignores_sample (prefix x y : string) :
  count_char ":" x = 0%nat -> count_char "." x = 0%nat ->
  count_char ":" y = 0%nat -> count_char "." y = 0%nat ->
  convert_time_body (VStr (prefix ++ "." ++ x))
  = convert_time_body (VStr (prefix ++ "." ++ y)).
Proof.
  intros cx dx cy dy. unfold convert_time_body. cbn [str_split bind].
  change ("." ++ x) with (String "." x). change ("." ++ y) with (String "." y).
  rewrite (split_app_free ":" prefix (String "." x)) by exact cx.
  rewrite (split_app_free ":" prefix (String "." y)) by exact cy.
  destruct (split ":" prefix) as [| m [| ss [| t rest]]].
  - reflexivity.
  - reflexivity.
  - cbn [removelast last app unpack2 bind].
    rewrite !split_app_sep, (split_without_sep "." x dx), (split_without_sep "." y dy).
    destruct (split "." ss) as [| s [| s' more]]; try reflexivity.
    cbn [app]. destruct more; reflexivity.
  - rewrite !unpack2_three. reflexivity.
Qed.

(** X15: the sample index is ignored.  Two time strings that differ only
    in what follows the last dot, where that part holds neither [:] nor
    [.], parse to the same result, a number of seconds or [None]. *)
Theorem convert_time_to_seconds_ignores_sample (prefix x y : string) :
  count_char ":" x = 0%nat -> count_char "." x = 0%nat ->
  count_char ":" y = 0%nat -> count_char "." y = 0%nat ->
  convert_time_to_seconds (VStr (prefix ++ "." ++ x))
  = convert_time_to_seconds (VStr (prefix ++ "." ++ y)).
Proof.
  intros cx dx cy dy. unfold convert_time_to_seconds.
  rewrite (convert_time_body_ignores_sample prefix x y cx dx cy dy). reflexivity.
Qed.

Lemma convert_time_to_seconds_ignores_sample_witness :
  convert_time_to_seconds (VStr ("3:07" ++ "." ++ "000"))
  = convert_time_to_seconds (VStr ("3:07" ++ "." ++ "99x")).
Proof.
  apply (convert_time_to_seconds_ignores_sample "3:07" "000" "99x"); reflexivity.
Defined.
